(** * small-log: the AI provider service and the storage service

    A shallow embedding of [services/geminiService.ts] (the provider
    adapters and [AIProviderService]), [services/storageService.ts] and
    [types.ts], with the properties of the specification stated over it. *)

From Stdlib Require Import Ascii String ZArith Lia.
From stdpp Require Import base option list gmap strings pretty.

Local Open Scope string_scope.
Local Open Scope list_scope.

(** ** Strings

    A JavaScript string is kept as its UTF-8 bytes. Every character the
    code looks for (the [T] of an ISO date) is ASCII, and no byte of a
    multi-byte UTF-8 sequence is an ASCII byte. *)

Definition nl : string := String (ascii_of_nat 10) "".
Definition dq : string := String (ascii_of_nat 34) "".

(** Template literals that span several source lines. *)
Fixpoint unlines (ls : list string) : string :=
  match ls with
  | [] => ""
  | [l] => l
  | l :: ls' => l +:+ nl +:+ unlines ls'
  end.

(** [Array.prototype.join]. *)
Fixpoint join (sep : string) (ls : list string) : string :=
  match ls with
  | [] => ""
  | [l] => l
  | l :: ls' => l +:+ sep +:+ join sep ls'
  end.

(** [String.prototype.split] with a one-character separator. *)
Fixpoint split (sep : ascii) (s : string) : list string :=
  match s with
  | "" => [""]
  | String a s' =>
      if Ascii.eqb a sep then "" :: split sep s'
      else match split sep s' with
           | h :: t => String a h :: t
           | [] => [String a ""]
           end
  end.

Definition upper_ascii (a : ascii) : ascii :=
  let n := nat_of_ascii a in
  if (97 <=? n)%nat && (n <=? 122)%nat then ascii_of_nat (n - 32) else a.

(** [String.prototype.toUpperCase], on the ASCII letters. *)
Fixpoint toUpperCase (s : string) : string :=
  match s with
  | "" => ""
  | String a s' => String (upper_ascii a) (toUpperCase s')
  end.

(** [String.prototype.includes]. *)
Fixpoint includes (s sub : string) : bool :=
  String.prefix sub s ||
  match s with
  | "" => false
  | String _ s' => includes s' sub
  end.

(** ** JavaScript values

    The values that [JSON.parse] and [response.json()] produce. A property
    read that finds nothing gives [undefined], written [None] in
    [option json]. Numbers are integers: the code only tests them for
    truthiness and prints them. *)

#[local] Set Warnings "-register-all".

Inductive json : Type :=
| JNull
| JBool (b : bool)
| JNum (n : Z)
| JStr (s : string)
| JArr (elems : list json)
| JObj (fields : list (string * json)).

(** Objects keep their keys in insertion order; the keys of an object are
    distinct, and a lookup takes the first entry of a key. *)
Fixpoint assoc {A} (k : string) (o : list (string * A)) : option A :=
  match o with
  | [] => None
  | (k', v) :: o' => if String.eqb k k' then Some v else assoc k o'
  end.

(** [o[k] = v]: an existing key keeps its place. *)
Fixpoint obj_set {A} (k : string) (v : A) (o : list (string * A)) : list (string * A) :=
  match o with
  | [] => [(k, v)]
  | (k', v') :: o' =>
      if String.eqb k k' then (k, v) :: o' else (k', v') :: obj_set k v o'
  end.

Fixpoint chars (s : string) : list string :=
  match s with
  | "" => []
  | String a s' => String a "" :: chars s'
  end.

(** The own enumerable properties that an object spread [...v] copies.
    (The elements of a string are its bytes, which are the characters of
    an ASCII text.) *)
Definition own_entries (v : option json) : list (string * json) :=
  match v with
  | Some (JObj o) => o
  | Some (JArr l) => imap (fun i x => (pretty i, x)) l
  | Some (JStr s) => imap (fun i c => (pretty i, JStr c)) (chars s)
  | _ => []
  end.

(** [{ ...target, ...v }]. A key that is new goes to the end; JavaScript
    enumerates integer-like keys before the others, an order that no
    lookup sees. *)
Definition spread (target : list (string * json)) (v : option json) : list (string * json) :=
  fold_left (fun acc kv => obj_set (fst kv) (snd kv) acc) (own_entries v) target.

Definition nullish (v : option json) : bool :=
  match v with
  | None | Some JNull => true
  | _ => false
  end.

Definition truthy (v : option json) : bool :=
  match v with
  | None | Some JNull | Some (JBool false) | Some (JNum 0) | Some (JStr "") => false
  | _ => true
  end.

(** [v || d]. *)
Definition or_else (v : option json) (d : json) : json :=
  match v with
  | Some x => if truthy v then x else d
  | None => d
  end.

(** Own property [k] of a value that is neither [null] nor [undefined].
    The names the code reads ([error], [message], [choices], [content],
    [providers]) are no index, no [length] and no prototype member, so
    only an object can have them. *)
Definition own_prop (v : json) (k : string) : option json :=
  match v with
  | JObj o => assoc k o
  | _ => None
  end.

(** [v?.k]. *)
Definition get_opt (v : option json) (k : string) : option json :=
  match v with
  | Some x => if nullish v then None else own_prop x k
  | None => None
  end.

(** Own element [i] of a value that is neither [null] nor [undefined]. *)
Definition own_index (v : json) (i : nat) : option json :=
  match v with
  | JArr l => l !! i
  | JStr s => JStr <$> chars s !! i
  | JObj o => assoc (pretty i) o
  | _ => None
  end.

(** What a template literal prints for a value. A number is printed with
    all its digits, as JavaScript prints the integers below 10^21. *)
Fixpoint ToString (v : json) : string :=
  match v with
  | JNull => "null"
  | JBool true => "true"
  | JBool false => "false"
  | JNum n => pretty n
  | JStr s => s
  | JArr l =>
      join "," (map (fun x => match x with JNull => "" | _ => ToString x end) l)
  | JObj _ => "[object Object]"
  end.

(** ** Errors *)

Inductive exn : Type :=
| Error (message : string)
| TypeError (message : string)
| SyntaxError (message : string).

Definition message (e : exn) : string :=
  match e with
  | Error m | TypeError m | SyntaxError m => m
  end.

(** The [TypeError] of a property read on [null] or [undefined]. *)
Definition cannot_read (v : option json) (k : string) : exn :=
  TypeError ("Cannot read properties of "
             +:+ (match v with None => "undefined" | Some _ => "null" end)
             +:+ " (reading '" +:+ k +:+ "')").

Inductive completion (A : Type) : Type :=
| Return (a : A)
| Throw (e : exn).
Arguments Return {A} a.
Arguments Throw {A} e.

(** ** types.ts *)

Inductive ReportType : Type := weekly | monthly | yearly.
Inductive AIProviderType : Type := gemini | deepseek.
Inductive Language : Type := zh | en.

Definition provider_name (p : AIProviderType) : string :=
  match p with
  | gemini => "gemini"
  | deepseek => "deepseek"
  end.

Record AIProviderConfig : Type := {
  type : AIProviderType;
  apiKey : string;
  model : string;
  enabled : bool
}.

Record Providers : Type := {
  providers_gemini : AIProviderConfig;
  providers_deepseek : AIProviderConfig
}.

Record AppSettings : Type := {
  activeProvider : AIProviderType;
  providers : Providers;
  language : Language;
  autoAnalyze : bool
}.

(** [providers[activeProvider]]. *)
Definition providers_get (ps : Providers) (p : AIProviderType) : AIProviderConfig :=
  match p with
  | gemini => providers_gemini ps
  | deepseek => providers_deepseek ps
  end.

Record Report : Type := {
  report_id : string;
  report_type : ReportType;
  report_title : string;
  report_content : string;
  startDate : string;
  endDate : string;
  createdAt : string;
  entryCount : Z
}.

Inductive Sentiment : Type := positive | neutral | negative.

Record AiAnalysis : Type := {
  ai_suggestions : option (list string);
  ai_keywords : option (list string)
}.

Record Entry : Type := {
  entry_id : string;
  title : string;
  content : string;
  date : string;
  updatedAt : string;
  tags : list string;
  sentiment : option Sentiment;
  sentimentScore : option Z;
  summary : option string;
  mood : option string;
  aiAnalysis : option AiAnalysis
}.

Definition DEFAULT_SETTINGS : AppSettings := {|
  activeProvider := deepseek;
  providers := {|
    providers_gemini :=
      {| type := gemini; apiKey := ""; model := "gemini-2.0-flash"; enabled := false |};
    providers_deepseek :=
      {| type := deepseek; apiKey := ""; model := "deepseek-chat"; enabled := true |}
  |};
  language := zh;
  autoAnalyze := false
|}.

(** The objects above as the values [JSON.stringify] writes and the
    spread operator copies. *)

Definition ReportType_name (t : ReportType) : string :=
  match t with
  | weekly => "weekly"
  | monthly => "monthly"
  | yearly => "yearly"
  end.

Definition Language_name (l : Language) : string :=
  match l with
  | zh => "zh"
  | en => "en"
  end.

Definition AIProviderConfig_json (c : AIProviderConfig) : json :=
  JObj [("type", JStr (provider_name (type c)));
        ("apiKey", JStr (apiKey c));
        ("model", JStr (model c));
        ("enabled", JBool (enabled c))].

Definition Providers_json (ps : Providers) : json :=
  JObj [("gemini", AIProviderConfig_json (providers_gemini ps));
        ("deepseek", AIProviderConfig_json (providers_deepseek ps))].

Definition AppSettings_json (s : AppSettings) : json :=
  JObj [("activeProvider", JStr (provider_name (activeProvider s)));
        ("providers", Providers_json (providers s));
        ("language", JStr (Language_name (language s)));
        ("autoAnalyze", JBool (autoAnalyze s))].

Definition Report_json (r : Report) : json :=
  JObj [("id", JStr (report_id r));
        ("type", JStr (ReportType_name (report_type r)));
        ("title", JStr (report_title r));
        ("content", JStr (report_content r));
        ("startDate", JStr (startDate r));
        ("endDate", JStr (endDate r));
        ("createdAt", JStr (createdAt r));
        ("entryCount", JNum (entryCount r))].

Definition Sentiment_name (x : Sentiment) : string :=
  match x with
  | positive => "positive"
  | neutral => "neutral"
  | negative => "negative"
  end.

(** An optional property: [JSON.stringify] leaves out what is
    [undefined]. *)
Definition optional {A} (k : string) (f : A -> json) (v : option A) : list (string * json) :=
  match v with
  | Some x => [(k, f x)]
  | None => []
  end.

Definition strings_json (l : list string) : json := JArr (map JStr l).

Definition AiAnalysis_json (a : AiAnalysis) : json :=
  JObj (optional "suggestions" strings_json (ai_suggestions a) ++
        optional "keywords" strings_json (ai_keywords a)).

Definition Entry_json (e : Entry) : json :=
  JObj ([("id", JStr (entry_id e));
         ("title", JStr (title e));
         ("content", JStr (content e));
         ("date", JStr (date e));
         ("updatedAt", JStr (updatedAt e));
         ("tags", strings_json (tags e))] ++
        optional "sentiment" (fun x => JStr (Sentiment_name x)) (sentiment e) ++
        optional "sentimentScore" JNum (sentimentScore e) ++
        optional "summary" JStr (summary e) ++
        optional "mood" JStr (mood e) ++
        optional "aiAnalysis" AiAnalysis_json (aiAnalysis e)).

(** ** The host: network, vendor SDK, console, localStorage

    Objects are passed by reference: a [settings] argument is the address
    of an [AppSettings] object in the heap. [fetch] and the vendor SDK are
    stubs of the host; every call they receive is recorded. *)

Record RequestInit : Type := {
  method : string;
  headers : list (string * string);
  body : json        (* the value whose [JSON.stringify] text is sent *)
}.

Record Request : Type := {
  url : string;
  init : RequestInit
}.

Record Response : Type := {
  status : nat;
  payload : exn + json   (* what [response.json()] settles with *)
}.

(** [response.ok]. *)
Definition ok (r : Response) : bool :=
  (200 <=? status r)%nat && (status r <=? 299)%nat.

(** The response schema of the vendor SDK ([Type.OBJECT], ...). *)
Inductive Schema : Type :=
| SString (enum : list string) (description : string)
| SInteger (description : string)
| SArray (items : Schema) (description : string)
| SObject (properties : list (string * Schema)) (required : list string).

Record GenerateContentConfig : Type := {
  responseMimeType : option string;
  responseSchema : option Schema;
  systemInstruction : option string
}.

Record GenerateContentParameters : Type := {
  gc_model : string;
  contents : string;
  config : option GenerateContentConfig
}.

Record GenerateContentResponse : Type := {
  response_text : option string
}.

(** [new GoogleGenAI({ apiKey })]. *)
Record GoogleGenAI : Type := {
  genai_apiKey : string
}.

Inductive NetCall : Type :=
| FetchCall (r : Request)
| GenerateContentCall (ai : GoogleGenAI) (p : GenerateContentParameters).

(** A localStorage text, by what [JSON.parse] makes of it: [Encoded v]
    is the text [JSON.stringify v]; on a [Garbled] text [JSON.parse]
    throws the error it carries; [Empty] is the empty text, which is
    falsy. *)
Inductive stored : Type :=
| Empty
| Garbled (e : exn)
| Encoded (v : json).

Record World : Type := {
  heap : gmap nat AppSettings;
  localStorage : gmap string stored;
  calls : list NetCall;
  console : list (string * exn)
}.

Record Host : Type := {
  host_fetch : Request -> exn + Response;
  host_generateContent : GoogleGenAI -> GenerateContentParameters -> exn + GenerateContentResponse;
  host_JSON_parse : json -> exn + json   (* [JSON.parse] of a response text *)
}.

(** Computations: they read the host, change the world, and return or
    throw. *)
Definition M (A : Type) : Type := Host -> World -> completion A * World.

Definition ret {A} (a : A) : M A := fun _ w => (Return a, w).

Definition throw {A} (e : exn) : M A := fun _ w => (Throw e, w).

Definition bind {A B} (m : M A) (k : A -> M B) : M B :=
  fun h w =>
    match m h w with
    | (Return a, w') => k a h w'
    | (Throw e, w') => (Throw e, w')
    end.

(** [try { m } catch (e) { handler e }]. *)
Definition try_catch {A} (m : M A) (handler : exn -> M A) : M A :=
  fun h w =>
    match m h w with
    | (Return a, w') => (Return a, w')
    | (Throw e, w') => handler e h w'
    end.

Declare Scope js_scope.
Delimit Scope js_scope with js.
Notation "x <- m ;; k" := (bind m (fun x => k))
  (at level 100, m at next level, right associativity) : js_scope.
Notation "m ;;; k" := (bind m (fun _ => k))
  (at level 100, right associativity) : js_scope.
Local Open Scope js_scope.

Definition lift {A} (r : exn + A) : M A :=
  match r with
  | inl e => throw e
  | inr a => ret a
  end.

Definition record_call (c : NetCall) : M unit :=
  fun _ w =>
    (Return tt,
     {| heap := heap w; localStorage := localStorage w;
        calls := calls w ++ [c]; console := console w |}).

(** [await fetch(url, init)]. *)
Definition fetch (r : Request) : M Response :=
  fun h => (record_call (FetchCall r) ;;; lift (host_fetch h r)) h.

(** [await response.json()]. *)
Definition Response_json (r : Response) : M json := lift (payload r).

(** [await ai.models.generateContent(params)]. *)
Definition generateContent (ai : GoogleGenAI) (p : GenerateContentParameters)
  : M GenerateContentResponse :=
  fun h => (record_call (GenerateContentCall ai p) ;;; lift (host_generateContent h ai p)) h.

(** [JSON.parse(text)]. *)
Definition JSON_parse (v : json) : M json := fun h => lift (host_JSON_parse h v) h.

(** [console.error(label, error)]. *)
Definition console_error (label : string) (e : exn) : M unit :=
  fun _ w =>
    (Return tt,
     {| heap := heap w; localStorage := localStorage w;
        calls := calls w; console := console w ++ [(label, e)] |}).

(** Reading the object a reference points to; destructuring [undefined]
    throws. *)
Definition deref (settings : nat) : M AppSettings :=
  fun _ w =>
    match heap w !! settings with
    | Some s => (Return s, w)
    | None =>
        (Throw (TypeError "Cannot destructure property 'activeProvider' of 'settings' as it is undefined."), w)
    end.

(** [v.k]: throws on [null] and [undefined]. *)
Definition get (v : option json) (k : string) : M (option json) :=
  match v with
  | Some x => if nullish v then throw (cannot_read v k) else ret (own_prop x k)
  | None => throw (cannot_read v k)
  end.

(** [v[i]]: throws on [null] and [undefined]. *)
Definition index (v : option json) (i : nat) : M (option json) :=
  match v with
  | Some x => if nullish v then throw (cannot_read v (pretty i)) else ret (own_index x i)
  | None => throw (cannot_read v (pretty i))
  end.

(** ** geminiService.ts: prompts and schema *)

Record ReportTypeInfo : Type := {
  info_title : string;
  prompt : string
}.

Definition REPORT_PROMPTS (t : ReportType) : ReportTypeInfo :=
  match t with
  | weekly =>
      {| info_title := "周报";
         prompt := unlines
           ["Generate a weekly summary report based on the following diary entries. ";
            "Identify recurring themes, emotional trends, and key events.";
            "Provide actionable insights and encouragement.";
            "Format in Markdown with sections: ";
            "- 📊 本周概览 (Overview)";
            "- 💭 情绪趋势 (Emotional Trends)";
            "- 🎯 主要话题 (Key Topics)";
            "- 💡 洞察与建议 (Insights & Suggestions)";
            "- ✨ 下周展望 (Looking Ahead)"] |}
  | monthly =>
      {| info_title := "月报";
         prompt := unlines
           ["Generate a monthly summary report based on the following diary entries.";
            "Analyze the overall emotional journey, identify patterns and growth areas.";
            "Format in Markdown with sections:";
            "- 📅 本月回顾 (Monthly Overview)";
            "- 📈 情绪变化曲线 (Emotional Journey)";
            "- 🏆 本月成就 (Achievements)";
            "- 🔄 反复出现的主题 (Recurring Themes)";
            "- 🌱 成长与变化 (Growth & Changes)";
            "- 💪 下月目标建议 (Goals for Next Month)"] |}
  | yearly =>
      {| info_title := "年度报告";
         prompt := unlines
           ["Generate a comprehensive yearly review based on the following diary entries.";
            "This is a deep reflection on the entire year's journey.";
            "Format in Markdown with sections:";
            "- 🎊 年度总结 (Year in Review)";
            "- 📊 情绪全景图 (Emotional Landscape)";
            "- ⭐ 年度高光时刻 (Highlights of the Year)";
            "- 🎓 学到的人生经验 (Life Lessons Learned)";
            "- 🔮 个人成长轨迹 (Personal Growth Trajectory)";
            "- 💫 新年寄语 (Message for the New Year)"] |}
  end.

Definition ANALYSIS_PROMPT : string :=
  unlines
    ["Analyze the following diary entry. Provide sentiment analysis, a brief summary, extract relevant tags, identify the mood (as an emoji), and offer 1-2 writing suggestions or reflective questions.";
     "";
     "Entry:";
     ""].

Definition SYSTEM_INSTRUCTION_ANALYSIS : string :=
  "You are an empathetic, insightful personal diary assistant. Your goal is to help the user organize their thoughts and gain insights. Always respond in Chinese.".

Definition SYSTEM_INSTRUCTION_REPORT : string :=
  "You are a professional life coach and analyst. Provide a warm, encouraging, but analytical summary. Always respond in Chinese.".

(** The format request that the chat-completion adapter appends. *)
Definition ANALYSIS_FORMAT : string :=
  unlines
    ["";
     "";
     "Please respond with a JSON object containing:";
     "- sentiment: " +:+ dq +:+ "positive" +:+ dq +:+ ", " +:+ dq +:+ "neutral" +:+ dq +:+ ", or " +:+ dq +:+ "negative"  +:+ dq;
     "- sentimentScore: number from 0 to 100";
     "- summary: brief summary in Chinese (max 2 sentences)";
     "- tags: array of relevant tags in Chinese";
     "- mood: a single emoji";
     "- suggestions: array of 1-2 suggestions or questions in Chinese"].

Definition analysisSchema : Schema :=
  SObject
    [("sentiment", SString ["positive"; "neutral"; "negative"] "The overall sentiment of the text.");
     ("sentimentScore", SInteger "A score from 0 to 100 representing positivity.");
     ("summary", SString [] "A concise summary of the diary entry (max 2 sentences).");
     ("tags", SArray (SString [] "") "Relevant topics or keywords extracted from the text.");
     ("mood", SString [] "A single emoji representing the mood.");
     ("suggestions", SArray (SString [] "")
        "Writing improvements or reflective questions based on the content.")]
    ["sentiment"; "sentimentScore"; "summary"; "tags"; "mood"; "suggestions"].

(** [l[0]] inside a template literal. *)
Definition first_printed (l : list string) : string :=
  match l with
  | h :: _ => h
  | [] => "undefined"
  end.

(** The block of one entry and the context of a report request, as both
    adapters build them. *)
Definition entry_block (e : Entry) : string :=
  "日期: " +:+ first_printed (split "T" (date e)) +:+ nl +:+
  "标题: " +:+ title e +:+ nl +:+
  "内容: " +:+ content e.

Definition SEPARATOR : string := nl +:+ "---" +:+ nl.

Definition report_context (entries : list Entry) : string :=
  join SEPARATOR (map entry_block entries).

Definition NO_ENTRIES : string := "没有可分析的日记条目。".
Definition NO_REPORT : string := "无法生成报告。".

(** ** geminiService.ts: the first service, Gemini only

    [API_KEY] is read from the environment when the module loads. *)

Module GeminiService.

Definition ai (API_KEY : string) : GoogleGenAI := {| genai_apiKey := API_KEY |}.

Definition analyzeEntry (API_KEY : string) (text : string) : M json :=
  if String.eqb API_KEY "" then
    throw (Error "API Key is missing. Please configure your environment.")
  else
    try_catch
      (response <- generateContent (ai API_KEY)
         {| gc_model := "gemini-3-flash-preview";
            contents := ANALYSIS_PROMPT +:+ text;
            config := Some {| responseMimeType := Some "application/json";
                              responseSchema := Some analysisSchema;
                              systemInstruction := Some "You are an empathetic, insightful personal diary assistant. Your goal is to help the user organize their thoughts and gain insights." |} |} ;;
       match response_text response with
       | Some jsonText =>
           if String.eqb jsonText "" then throw (Error "No response from AI")
           else JSON_parse (JStr jsonText)
       | None => throw (Error "No response from AI")
       end)
      (fun error => console_error "Gemini Analysis Failed:" error ;;; throw error).

Definition context (entries : list Entry) : string :=
  join (nl +:+ "---" +:+ nl)
    (map (fun e => "Date: " +:+ first_printed (split "T" (date e)) +:+ nl +:+
                   "Title: " +:+ title e +:+ nl +:+
                   "Content: " +:+ content e) entries).

Definition generateWeeklyReport (API_KEY : string) (entries : list Entry) : M string :=
  if (length entries =? 0)%nat then ret "No entries to analyze."
  else
    try_catch
      (response <- generateContent (ai API_KEY)
         {| gc_model := "gemini-3-flash-preview";
            contents := "Generate a weekly summary report based on the following diary entries. Identify recurring themes, emotional trends, and key events. Format in Markdown." +:+ nl +:+ nl +:+ "Entries:" +:+ nl +:+ context entries;
            config := Some {| responseMimeType := None;
                              responseSchema := None;
                              systemInstruction := Some "You are a professional life coach and analyst. Provide a warm, encouraging, but analytical summary." |} |} ;;
       ret (match response_text response with
            | Some t => if String.eqb t "" then "Could not generate report." else t
            | None => "Could not generate report."
            end))
      (fun error =>
         console_error "Report Generation Failed:" error ;;;
         ret "Error generating report. Please check your connection.").

End GeminiService.

(** ** geminiService.ts: the DeepSeek adapter *)

Module DeepSeekAdapter.

Record adapter : Type := {
  this_apiKey : string;
  this_model : string;
  baseUrl : string
}.

Definition new (apiKey model : string) : adapter :=
  {| this_apiKey := apiKey; this_model := model; baseUrl := "https://api.deepseek.com" |}.

Definition chat_request (this : adapter) (systemPrompt userPrompt : string)
    (jsonMode : bool) : Request :=
  {| url := baseUrl this +:+ "/chat/completions";
     init :=
       {| method := "POST";
          headers := [("Content-Type", "application/json");
                      ("Authorization", "Bearer " +:+ this_apiKey this)];
          body :=
            JObj ([("model", JStr (this_model this));
                   ("messages",
                    JArr [JObj [("role", JStr "system");
                                ("content",
                                 JStr (systemPrompt +:+
                                       (if jsonMode
                                        then nl +:+ nl +:+ "You must respond with valid JSON only."
                                        else "")))];
                          JObj [("role", JStr "user"); ("content", JStr userPrompt)]]);
                   ("stream", JBool false)]
                  ++ (if jsonMode
                      then [("response_format", JObj [("type", JStr "json_object")])]
                      else [])) |} |}.

Definition chat (this : adapter) (systemPrompt userPrompt : string) (jsonMode : bool)
  : M json :=
  response <- fetch (chat_request this systemPrompt userPrompt jsonMode) ;;
  if negb (ok response) then
    error <- try_catch (v <- Response_json response ;; ret (Some v))
                       (fun _ => ret (Some (JObj []))) ;;
    inner <- get error "error" ;;
    throw (Error ("DeepSeek API Error: " +:+ pretty (status response) +:+ " - " +:+
                  ToString (or_else (get_opt inner "message") (JStr "Unknown error"))))
  else
    data <- Response_json response ;;
    choices <- get (Some data) "choices" ;;
    first <- index choices 0 ;;
    ret (or_else (get_opt (get_opt first "message") "content") (JStr "")).

Definition analyzeEntry (this : adapter) (text : string) : M json :=
  let prompt := ANALYSIS_PROMPT +:+ text +:+ ANALYSIS_FORMAT in
  result <- chat this SYSTEM_INSTRUCTION_ANALYSIS prompt true ;;
  JSON_parse result.

Definition generateReport (this : adapter) (entries : list Entry)
    (reportType : ReportType) : M json :=
  if (length entries =? 0)%nat then ret (JStr NO_ENTRIES)
  else
    let context := report_context entries in
    let fullPrompt :=
      prompt (REPORT_PROMPTS reportType) +:+ nl +:+ nl +:+ "日记条目:" +:+ nl +:+ context in
    chat this SYSTEM_INSTRUCTION_REPORT fullPrompt false.

End DeepSeekAdapter.

(** ** geminiService.ts: the Gemini adapter *)

Module GeminiAdapter.

Record adapter : Type := {
  ai : GoogleGenAI;
  this_model : string
}.

Definition new (apiKey model : string) : adapter :=
  {| ai := {| genai_apiKey := apiKey |}; this_model := model |}.

Definition analyze_request (this : adapter) (text : string) : GenerateContentParameters :=
  {| gc_model := this_model this;
     contents := ANALYSIS_PROMPT +:+ text;
     config := Some {| responseMimeType := Some "application/json";
                       responseSchema := Some analysisSchema;
                       systemInstruction := Some SYSTEM_INSTRUCTION_ANALYSIS |} |}.

Definition analyzeEntry (this : adapter) (text : string) : M json :=
  response <- generateContent (ai this) (analyze_request this text) ;;
  match response_text response with
  | Some jsonText =>
      if String.eqb jsonText "" then throw (Error "No response from Gemini AI")
      else JSON_parse (JStr jsonText)
  | None => throw (Error "No response from Gemini AI")
  end.

Definition report_request (this : adapter) (entries : list Entry)
    (reportType : ReportType) : GenerateContentParameters :=
  {| gc_model := this_model this;
     contents := prompt (REPORT_PROMPTS reportType) +:+ nl +:+ nl +:+ "日记条目:" +:+ nl +:+
                 report_context entries;
     config := Some {| responseMimeType := None;
                       responseSchema := None;
                       systemInstruction := Some SYSTEM_INSTRUCTION_REPORT |} |}.

Definition generateReport (this : adapter) (entries : list Entry)
    (reportType : ReportType) : M json :=
  if (length entries =? 0)%nat then ret (JStr NO_ENTRIES)
  else
    response <- generateContent (ai this) (report_request this entries reportType) ;;
    ret (JStr (match response_text response with
               | Some t => if String.eqb t "" then NO_REPORT else t
               | None => NO_REPORT
               end)).

End GeminiAdapter.

(** ** geminiService.ts: the unified service *)

Module AIProviderService.

Definition key_missing (p : AIProviderType) : exn :=
  Error ("请先配置 " +:+ toUpperCase (provider_name p) +:+ " 的 API Key").

Definition not_enabled (p : AIProviderType) : exn :=
  Error (toUpperCase (provider_name p) +:+ " 提供商未启用").

Definition analyzeEntry (text : string) (settings : nat) : M json :=
  s <- deref settings ;;
  let providerConfig := providers_get (providers s) (activeProvider s) in
  if String.eqb (apiKey providerConfig) "" then throw (key_missing (activeProvider s))
  else if negb (enabled providerConfig) then throw (not_enabled (activeProvider s))
  else
    try_catch
      (match activeProvider s with
       | deepseek =>
           let adapter := DeepSeekAdapter.new (apiKey providerConfig) (model providerConfig) in
           DeepSeekAdapter.analyzeEntry adapter text
       | gemini =>
           let adapter := GeminiAdapter.new (apiKey providerConfig) (model providerConfig) in
           GeminiAdapter.analyzeEntry adapter text
       end)
      (fun error =>
         console_error ("AI Analysis Failed (" +:+ provider_name (activeProvider s) +:+ "):")
                       error ;;;
         throw error).

Definition generateReport (entries : list Entry) (reportType : ReportType)
    (settings : nat) : M json :=
  s <- deref settings ;;
  let providerConfig := providers_get (providers s) (activeProvider s) in
  if String.eqb (apiKey providerConfig) "" then throw (key_missing (activeProvider s))
  else if negb (enabled providerConfig) then throw (not_enabled (activeProvider s))
  else
    try_catch
      (match activeProvider s with
       | deepseek =>
           let adapter := DeepSeekAdapter.new (apiKey providerConfig) (model providerConfig) in
           DeepSeekAdapter.generateReport adapter entries reportType
       | gemini =>
           let adapter := GeminiAdapter.new (apiKey providerConfig) (model providerConfig) in
           GeminiAdapter.generateReport adapter entries reportType
       end)
      (fun error =>
         console_error ("Report Generation Failed (" +:+ provider_name (activeProvider s) +:+ "):")
                       error ;;;
         throw error).

Definition getModels (provider : AIProviderType) : list string :=
  match provider with
  | deepseek => ["deepseek-chat"; "deepseek-reasoner"]
  | gemini => ["gemini-2.0-flash"; "gemini-2.0-flash-lite"; "gemini-1.5-pro"]
  end.

Definition validateApiKey (provider : AIProviderType) (apiKey : string) : M bool :=
  try_catch
    (match provider with
     | deepseek =>
         let adapter := DeepSeekAdapter.new apiKey "deepseek-chat" in
         DeepSeekAdapter.chat adapter "You are a test assistant."
           ("Say " +:+ dq +:+ "OK" +:+ dq +:+ " if you can hear me.") false ;;;
         ret true
     | gemini =>
         let ai := {| genai_apiKey := apiKey |} in
         generateContent ai {| gc_model := "gemini-2.0-flash";
                               contents := "Say " +:+ dq +:+ "OK" +:+ dq;
                               config := None |} ;;;
         ret true
     end)
    (fun _ => ret false).

Definition getReportTypeInfo (t : ReportType) : ReportTypeInfo := REPORT_PROMPTS t.

End AIProviderService.

(** ** storageService.ts *)

Module StorageService.

Definition STORAGE_KEY : string := "lumina_diary_entries".
Definition SETTINGS_KEY : string := "lumina_diary_settings".
Definition REPORTS_KEY : string := "lumina_diary_reports".

(** [localStorage.getItem(key)]: [null] when the key is absent. *)
Definition getItem (key : string) : M (option stored) :=
  fun _ w => (Return (localStorage w !! key), w).

(** [localStorage.setItem(key, JSON.stringify(v))]. *)
Definition setItem (key : string) (v : json) : M unit :=
  fun _ w =>
    (Return tt,
     {| heap := heap w; localStorage := <[key := Encoded v]> (localStorage w);
        calls := calls w; console := console w |}).

(** Truthiness of what [getItem] returned. *)
Definition present (item : option stored) : bool :=
  match item with
  | None | Some Empty => false
  | Some _ => true
  end.

(** [JSON.parse(stored)] on a text that [getItem] returned. *)
Definition parse (item : option stored) : M json :=
  match item with
  | Some (Encoded v) => ret v
  | Some (Garbled e) => throw e
  | Some Empty => throw (SyntaxError "Unexpected end of JSON input")
  | None => ret JNull
  end.

Definition DEFAULT_SETTINGS_value : json := AppSettings_json DEFAULT_SETTINGS.

Definition loadSettings : M json :=
  try_catch
    (item <- getItem SETTINGS_KEY ;;
     if present item then
       parsed <- parse item ;;
       parsed_providers <- get (Some parsed) "providers" ;;
       ret (JObj (obj_set "providers"
                    (JObj (spread (spread [] (Some (Providers_json (providers DEFAULT_SETTINGS))))
                                  parsed_providers))
                    (spread (spread [] (Some DEFAULT_SETTINGS_value)) (Some parsed))))
     else ret DEFAULT_SETTINGS_value)
    (fun e => console_error "Failed to load settings" e ;;; ret DEFAULT_SETTINGS_value).

(** [JSON.stringify(undefined)] is [undefined], which [setItem] stores as
    the text [undefined]; that text does not parse. *)
Definition saveSettings (settings : nat) : M unit :=
  fun h w =>
    match heap w !! settings with
    | Some s => setItem SETTINGS_KEY (AppSettings_json s) h w
    | None =>
        (Return tt,
         {| heap := heap w;
            localStorage := <[SETTINGS_KEY := Garbled (SyntaxError "Unexpected token u in JSON at position 0")]>
                              (localStorage w);
            calls := calls w; console := console w |})
    end.

Definition loadReports : M json :=
  try_catch
    (item <- getItem REPORTS_KEY ;;
     if present item then parse item else ret (JArr []))
    (fun e => console_error "Failed to load reports" e ;;; ret (JArr [])).

Definition saveReport (report : Report) : M unit :=
  reports <- loadReports ;;
  match reports with
  | JArr l =>
      let unshifted := Report_json report :: l in
      let trimmed := take 50 unshifted in
      setItem REPORTS_KEY (JArr trimmed)
  | JNull => throw (cannot_read (Some JNull) "unshift")
  | _ => throw (TypeError "reports.unshift is not a function")
  end.

(** [v === s] for a string [s]. *)
Definition strict_eq_string (v : option json) (s : string) : bool :=
  match v with
  | Some (JStr t) => String.eqb t s
  | _ => false
  end.

(** [Array.prototype.findIndex] and [Array.prototype.filter] with a
    callback that may throw. *)
Fixpoint findIndex (p : json -> M bool) (l : list json) : M (option nat) :=
  match l with
  | [] => ret None
  | e :: l' =>
      b <- p e ;;
      if b then ret (Some 0%nat)
      else i <- findIndex p l' ;; ret (S <$> i)
  end.

Fixpoint filter_array (p : json -> M bool) (l : list json) : M (list json) :=
  match l with
  | [] => ret []
  | e :: l' =>
      b <- p e ;;
      rest <- filter_array p l' ;;
      ret (if b then e :: rest else rest)
  end.

Definition loadEntries : M json :=
  try_catch
    (item <- getItem STORAGE_KEY ;;
     if present item then parse item else ret (JArr []))
    (fun e => console_error "Failed to load entries" e ;;; ret (JArr [])).

Definition saveEntry (entry : Entry) : M unit :=
  entries <- loadEntries ;;
  match entries with
  | JArr l =>
      index <- findIndex (fun e => id <- get (Some e) "id" ;;
                                   ret (strict_eq_string id (entry_id entry))) l ;;
      let entries' :=
        match index with
        | Some i => <[i := Entry_json entry]> l
        | None => l ++ [Entry_json entry]
        end in
      setItem STORAGE_KEY (JArr entries')
  | JNull => throw (cannot_read (Some JNull) "findIndex")
  | _ => throw (TypeError "entries.findIndex is not a function")
  end.

Definition deleteEntry (id : string) : M unit :=
  loaded <- loadEntries ;;
  match loaded with
  | JArr l =>
      entries <- filter_array (fun e => eid <- get (Some e) "id" ;;
                                        ret (negb (strict_eq_string eid id))) l ;;
      setItem STORAGE_KEY (JArr entries)
  | JNull => throw (cannot_read (Some JNull) "filter")
  | _ => throw (TypeError "this.loadEntries(...).filter is not a function")
  end.

Definition deleteReport (id : string) : M unit :=
  loaded <- loadReports ;;
  match loaded with
  | JArr l =>
      reports <- filter_array (fun r => rid <- get (Some r) "id" ;;
                                        ret (negb (strict_eq_string rid id))) l ;;
      setItem REPORTS_KEY (JArr reports)
  | JNull => throw (cannot_read (Some JNull) "filter")
  | _ => throw (TypeError "this.loadReports(...).filter is not a function")
  end.

End StorageService.

(** ** components/SettingsPanel.tsx: the handlers

    Each handler builds the new settings from the [settings] it was
    rendered with and hands them to [onSettingsChange]; the value it hands
    over is what the functions below return. *)

Module SettingsPanel.

(** [{ ...providers, [provider]: config }]. *)
Definition providers_set (ps : Providers) (provider : AIProviderType)
    (config : AIProviderConfig) : Providers :=
  match provider with
  | gemini => {| providers_gemini := config; providers_deepseek := providers_deepseek ps |}
  | deepseek => {| providers_gemini := providers_gemini ps; providers_deepseek := config |}
  end.

Definition handleProviderToggle (settings : AppSettings) (provider : AIProviderType)
  : AppSettings :=
  let old := providers_get (providers settings) provider in
  {| activeProvider := provider;
     providers := providers_set (providers settings) provider
                    {| type := type old; apiKey := apiKey old; model := model old;
                       enabled := true |};
     language := language settings;
     autoAnalyze := autoAnalyze settings |}.

Definition handleApiKeyChange (settings : AppSettings) (provider : AIProviderType)
    (key : string) : AppSettings :=
  let old := providers_get (providers settings) provider in
  {| activeProvider := activeProvider settings;
     providers := providers_set (providers settings) provider
                    {| type := type old; apiKey := key; model := model old;
                       enabled := enabled old |};
     language := language settings;
     autoAnalyze := autoAnalyze settings |}.

Definition handleModelChange (settings : AppSettings) (provider : AIProviderType)
    (name : string) : AppSettings :=
  let old := providers_get (providers settings) provider in
  {| activeProvider := activeProvider settings;
     providers := providers_set (providers settings) provider
                    {| type := type old; apiKey := apiKey old; model := name;
                       enabled := enabled old |};
     language := language settings;
     autoAnalyze := autoAnalyze settings |}.

Definition handleLanguageChange (settings : AppSettings) (l : Language) : AppSettings :=
  {| activeProvider := activeProvider settings;
     providers := providers settings;
     language := l;
     autoAnalyze := autoAnalyze settings |}.

Definition handleAutoAnalyzeToggle (settings : AppSettings) : AppSettings :=
  {| activeProvider := activeProvider settings;
     providers := providers settings;
     language := language settings;
     autoAnalyze := negb (autoAnalyze settings) |}.

End SettingsPanel.

(** ** components/AnalyticsDashboard.tsx: the mood distribution *)

Module AnalyticsDashboard.

(** [entries.reduce(...)] into an object of counters. *)
Definition moodCounts (entries : list Entry) : list (string * nat) :=
  fold_left
    (fun acc curr =>
       let s := match sentiment curr with
                | Some x => Sentiment_name x
                | None => "unclassified"
                end in
       obj_set s (default 0%nat (assoc s acc) + 1)%nat acc)
    entries [].

Record MoodDatum : Type := {
  mood_name : string;
  mood_value : nat;
  mood_color : string
}.

Definition moodData (entries : list Entry) : list MoodDatum :=
  let counts := moodCounts entries in
  [{| mood_name := "积极"; mood_value := default 0%nat (assoc "positive" counts);
      mood_color := "#22c55e" |};
   {| mood_name := "中性"; mood_value := default 0%nat (assoc "neutral" counts);
      mood_color := "#eab308" |};
   {| mood_name := "消极"; mood_value := default 0%nat (assoc "negative" counts);
      mood_color := "#ef4444" |}].

End AnalyticsDashboard.

(** ** components/Editor.tsx: the tags after an analysis *)

Module Editor.

(** The values of [new Set(l)], in insertion order. *)
Definition Set_values (l : list string) : list string :=
  fold_left (fun seen x => if existsb (String.eqb x) seen then seen else seen ++ [x]) l [].

(** [[...new Set([...entry.tags, ...result.tags])]]. *)
Definition merged_tags (entry_tags result_tags : list string) : list string :=
  Set_values (entry_tags ++ result_tags).

End Editor.

(** ** components/Sidebar.tsx: importing a backup file

    [result] is the text that the file reader loaded; the value returned
    is the message of the [alert], if there is one. *)

Module Sidebar.

Definition Array_isArray (v : option json) : bool :=
  match v with
  | Some (JArr _) => true
  | _ => false
  end.

Definition handleFileUpload (onImport : list json -> M unit) (result : stored)
  : M (option string) :=
  try_catch
    (parsed <- StorageService.parse (Some result) ;;
     entries <- (if Array_isArray (Some parsed) then ret (Some parsed)
                 else get (Some parsed) "entries") ;;
     match entries with
     | Some (JArr l) =>
         onImport l ;;;
         ret (Some ("成功导入 " +:+ pretty (length l) +:+ " 篇日记！"))
     | _ => ret None
     end)
    (fun _ => ret (Some "JSON 文件解析失败")).

End Sidebar.

(** ** App.tsx: the report history

    The handler replaces the [reports] state and then saves the report;
    its value here is the new state together with the storage effect. *)

Module App.

Definition handleReportGenerated (reports : list Report) (report : Report)
  : list Report * M unit :=
  (report :: reports, StorageService.saveReport report).

End App.

Import AIProviderService StorageService.

(** ** Definitions used by the statements

    The wording of the specification where it is compared with the code,
    and the hosts and worlds at which statements are evaluated. *)

(** The white space that [String.prototype.trim] removes, among ASCII. *)
Definition is_space (a : ascii) : bool :=
  let n := nat_of_ascii a in
  (n =? 32)%nat || ((9 <=? n)%nat && (n <=? 13)%nat).

Fixpoint whitespace_only (s : string) : bool :=
  match s with
  | "" => true
  | String a s' => is_space a && whitespace_only s'
  end.

(** The precondition claim as the specification words it: a key that is
    empty or only white space is rejected before any network attempt. *)
Definition blank_key_rejected : Prop :=
  forall (h : Host) (w : World) (settings : nat) (s : AppSettings) (text : string),
    heap w !! settings = Some s ->
    whitespace_only (apiKey (providers_get (providers s) (activeProvider s))) = true ->
    exists e, analyzeEntry text settings h w = (Throw e, w).

Definition offline : Host :=
  {| host_fetch := fun _ => inl (TypeError "Failed to fetch");
     host_generateContent := fun _ _ => inl (TypeError "Failed to fetch");
     host_JSON_parse := fun _ => inl (SyntaxError "Unexpected end of JSON input") |}.

Definition settings_with (p : AIProviderType) (key : string) (on : bool) : AppSettings :=
  {| activeProvider := p;
     providers :=
       {| providers_gemini :=
            {| type := gemini; apiKey := key; model := "gemini-2.0-flash"; enabled := on |};
          providers_deepseek :=
            {| type := deepseek; apiKey := key; model := "deepseek-chat"; enabled := on |} |};
     language := zh;
     autoAnalyze := false |}.

Definition world_with (s : AppSettings) : World :=
  {| heap := {[ 0%nat := s ]}; localStorage := ∅; calls := []; console := [] |}.

(** The serialisation of an entry as the specification words it. *)
Definition english_block (e : Entry) : string :=
  "Date: " +:+ first_printed (split "T" (date e)) +:+ nl +:+
  "Title: " +:+ title e +:+ nl +:+
  "Content: " +:+ content e.

Definition english_blocks : Prop :=
  forall entries : list Entry,
    entries <> [] ->
    report_context entries = join SEPARATOR (map english_block entries).

Fixpoint has_char (c : ascii) (s : string) : bool :=
  match s with
  | "" => false
  | String a s' => Ascii.eqb a c || has_char c s'
  end.

Definition entry_of (d t c : string) : Entry :=
  {| entry_id := "e1"; title := t; content := c; date := d; updatedAt := d;
     tags := []; sentiment := None; sentimentScore := None; summary := None;
     mood := None; aiAnalysis := None |}.

(** The world after one more recorded call. *)
Definition with_call (w : World) (c : NetCall) : World :=
  {| heap := heap w; localStorage := localStorage w;
     calls := calls w ++ [c]; console := console w |}.

(** The requests of the key probe. *)
Definition deepseek_probe_request (key : string) : Request :=
  DeepSeekAdapter.chat_request (DeepSeekAdapter.new key "deepseek-chat")
    "You are a test assistant." ("Say " +:+ dq +:+ "OK" +:+ dq +:+ " if you can hear me.") false.

Definition gemini_probe_parameters : GenerateContentParameters :=
  {| gc_model := "gemini-2.0-flash"; contents := "Say " +:+ dq +:+ "OK" +:+ dq; config := None |}.

(** The probe call that [validateApiKey] makes for each provider. *)
Definition probe (provider : AIProviderType) (key : string) : M unit :=
  match provider with
  | deepseek => DeepSeekAdapter.chat (DeepSeekAdapter.new key "deepseek-chat")
                  "You are a test assistant."
                  ("Say " +:+ dq +:+ "OK" +:+ dq +:+ " if you can hear me.") false ;;;
                ret tt
  | gemini => generateContent {| genai_apiKey := key |} gemini_probe_parameters ;;; ret tt
  end.

(** A host whose network answers every request with [r]. *)
Definition replying (r : Response) : Host :=
  {| host_fetch := fun _ => inr r;
     host_generateContent := fun _ _ => inl (TypeError "Failed to fetch");
     host_JSON_parse := fun _ => inl (SyntaxError "Unexpected end of JSON input") |}.

(** A host whose vendor SDK answers every call with the text [t]. *)
Definition generating (t : option string) : Host :=
  {| host_fetch := fun _ => inl (TypeError "Failed to fetch");
     host_generateContent := fun _ _ => inr {| response_text := t |};
     host_JSON_parse := fun _ => inl (SyntaxError "Unexpected end of JSON input") |}.

(** A body with a list of [choices] that carries no content: the list is
    empty, its first choice has no message, or the message has no content
    (absent, [null] or the empty string). A body without a list of
    [choices] is not of this kind. *)
Inductive choices_without_content : json -> Prop :=
| no_choice fields :
    assoc "choices" fields = Some (JArr []) ->
    choices_without_content (JObj fields)
| no_message fields c cs :
    assoc "choices" fields = Some (JArr (c :: cs)) ->
    nullish (own_prop c "message") = true ->
    choices_without_content (JObj fields)
| no_text fields c cs m :
    assoc "choices" fields = Some (JArr (c :: cs)) ->
    own_prop c "message" = Some m ->
    (own_prop m "content" = None \/ own_prop m "content" = Some JNull \/
     own_prop m "content" = Some (JStr "")) ->
    choices_without_content (JObj fields).

(** Settings saved before the [enabled] field of a provider existed. *)
Definition settings_without_enabled : json :=
  JObj [("activeProvider", JStr "deepseek");
        ("providers",
         JObj [("deepseek",
                JObj [("type", JStr "deepseek");
                      ("apiKey", JStr "sk-test");
                      ("model", JStr "deepseek-reasoner")])]);
        ("language", JStr "zh");
        ("autoAnalyze", JBool false)].

(** A world whose localStorage holds [v] under [key]. *)
Definition world_storing (key : string) (v : stored) : World :=
  {| heap := ∅; localStorage := {[ key := v ]}; calls := []; console := [] |}.

(** [v.a.b.c] with optional chaining at every step. *)
Definition path (v : json) (ks : list string) : option json :=
  fold_left get_opt ks (Some v).

Definition report_of (id : string) (t : ReportType) : Report :=
  {| report_id := id; report_type := t; report_title := "周报"; report_content := "...";
     startDate := "2024-03-04"; endDate := "2024-03-10";
     createdAt := "2024-03-10T20:00:00.000Z"; entryCount := 3 |}.

(** The fields that a loaded settings object always has. *)
Definition settings_shape (v : json) : Prop :=
  is_Some (path v ["activeProvider"]) /\
  is_Some (path v ["language"]) /\
  is_Some (path v ["autoAnalyze"]) /\
  exists ps, path v ["providers"] = Some (JObj ps) /\
             is_Some (assoc "gemini" ps) /\ is_Some (assoc "deepseek" ps).

(** The world after more recorded calls and more console lines. *)
Definition appended (w : World) (cs : list NetCall) (lg : list (string * exn)) : World :=
  {| heap := heap w; localStorage := localStorage w;
     calls := calls w ++ cs; console := console w ++ lg |}.

(** A computation that keeps no state: what it returns, the calls it
    makes and the lines it logs depend on the host and on the objects in
    the heap only, not on what was called or logged before; and it leaves
    the heap and localStorage as they were. *)
Definition stateless {A} (m : M A) : Prop :=
  forall (h : Host) (w : World),
  exists (r : completion A) (cs : list NetCall) (lg : list (string * exn)),
  forall w' : World, heap w' = heap w -> m h w' = (r, appended w' cs lg).

(** The one call that an analysis, or a report over [entries], makes for
    the settings [s]: the request of the adapter of the active provider,
    built with the key and the model of that provider's configuration. *)
Definition analysis_call (s : AppSettings) (text : string) : NetCall :=
  let cfg := providers_get (providers s) (activeProvider s) in
  match activeProvider s with
  | deepseek =>
      FetchCall (DeepSeekAdapter.chat_request (DeepSeekAdapter.new (apiKey cfg) (model cfg))
                   SYSTEM_INSTRUCTION_ANALYSIS
                   (ANALYSIS_PROMPT +:+ text +:+ ANALYSIS_FORMAT) true)
  | gemini =>
      GenerateContentCall {| genai_apiKey := apiKey cfg |}
        (GeminiAdapter.analyze_request (GeminiAdapter.new (apiKey cfg) (model cfg)) text)
  end.

Definition report_call (s : AppSettings) (entries : list Entry) (reportType : ReportType)
  : NetCall :=
  let cfg := providers_get (providers s) (activeProvider s) in
  match activeProvider s with
  | deepseek =>
      FetchCall (DeepSeekAdapter.chat_request (DeepSeekAdapter.new (apiKey cfg) (model cfg))
                   SYSTEM_INSTRUCTION_REPORT
                   (prompt (REPORT_PROMPTS reportType) +:+ nl +:+ nl +:+ "日记条目:" +:+ nl +:+
                    report_context entries) false)
  | gemini =>
      GenerateContentCall {| genai_apiKey := apiKey cfg |}
        (GeminiAdapter.report_request (GeminiAdapter.new (apiKey cfg) (model cfg))
           entries reportType)
  end.

(** ** Typed views of the stored lists *)

(** The first position of an identifier among typed records. *)
Fixpoint index_of {A} (key : A -> string) (id : string) (xs : list A) : option nat :=
  match xs with
  | [] => None
  | x :: xs' => if String.eqb (key x) id then Some 0%nat else S <$> index_of key id xs'
  end.

(** The records with another identifier. *)
Definition without {A} (key : A -> string) (id : string) (xs : list A) : list A :=
  List.filter (fun x => negb (String.eqb (key x) id)) xs.

(** The operations of the storage service on entries and reports. *)
Inductive storage_op : Type :=
| OpSaveEntry (e : Entry)
| OpDeleteEntry (id : string)
| OpSaveReport (r : Report)
| OpDeleteReport (id : string).

Definition run_op (op : storage_op) : M unit :=
  match op with
  | OpSaveEntry e => saveEntry e
  | OpDeleteEntry id => deleteEntry id
  | OpSaveReport r => saveReport r
  | OpDeleteReport id => deleteReport id
  end.

Fixpoint run_ops (ops : list storage_op) : M unit :=
  match ops with
  | [] => ret tt
  | op :: ops' => run_op op ;;; run_ops ops'
  end.

(** Saving a record into a typed list: in place at the first position of
    its identifier, or at the end. *)
Definition upsert {A} (key : A -> string) (x : A) (xs : list A) : list A :=
  match index_of key (key x) xs with
  | Some i => <[i := x]> xs
  | None => xs ++ [x]
  end.

(** What [loadEntries] and [loadReports] read under a key. *)
Definition listed (key : string) (w : World) : json :=
  match localStorage w !! key with
  | Some (Encoded v) => v
  | _ => JArr []
  end.

Definition entry_named (id t : string) : Entry :=
  {| entry_id := id; title := t; content := "..."; date := "2024-03-09T08:15:00.000Z";
     updatedAt := "2024-03-09T08:15:00.000Z"; tags := ["walk"]; sentiment := Some positive;
     sentimentScore := Some 80%Z; summary := None; mood := None; aiAnalysis := None |}.

(** A world whose localStorage holds the entries [es]. *)
Definition world_of_entries (es : list Entry) : World :=
  world_storing STORAGE_KEY (Encoded (JArr (map Entry_json es))).

(** The stored entries and reports are typed lists, the reports at most
    50. *)
Definition typed_storage (h : Host) (w : World) : Prop :=
  exists (es : list Entry) (rs : list Report),
    fst (loadEntries h w) = Return (JArr (map Entry_json es)) /\
    fst (loadReports h w) = Return (JArr (map Report_json rs)) /\
    (length rs <= 50)%nat.

(** The adapter call that the service makes for the settings [s]. *)
Definition adapter_analyzeEntry (s : AppSettings) (text : string) : M json :=
  let cfg := providers_get (providers s) (activeProvider s) in
  match activeProvider s with
  | deepseek => DeepSeekAdapter.analyzeEntry (DeepSeekAdapter.new (apiKey cfg) (model cfg)) text
  | gemini => GeminiAdapter.analyzeEntry (GeminiAdapter.new (apiKey cfg) (model cfg)) text
  end.

Definition adapter_generateReport (s : AppSettings) (entries : list Entry)
    (reportType : ReportType) : M json :=
  let cfg := providers_get (providers s) (activeProvider s) in
  match activeProvider s with
  | deepseek => DeepSeekAdapter.generateReport (DeepSeekAdapter.new (apiKey cfg) (model cfg))
                  entries reportType
  | gemini => GeminiAdapter.generateReport (GeminiAdapter.new (apiKey cfg) (model cfg))
                entries reportType
  end.

(** The console line of a thrown error. *)
Definition logged (label : string) {A} (r : completion A) : list (string * exn) :=
  match r with
  | Throw e => [(label, e)]
  | Return _ => []
  end.

(** A completion read off a host answer. *)
Definition settled {A} (r : exn + A) : completion A :=
  match r with
  | inl e => Throw e
  | inr a => Return a
  end.

(** A host whose vendor SDK rejects every call with [e]. *)
Definition rejecting (e : exn) : Host :=
  {| host_fetch := fun _ => inl e;
     host_generateContent := fun _ _ => inl e;
     host_JSON_parse := fun _ => inl (SyntaxError "Unexpected end of JSON input") |}.

(** A host whose network answers every request with [r] and whose
    [JSON.parse] gives [v]. *)
Definition answering (r : Response) (v : json) : Host :=
  {| host_fetch := fun _ => inr r;
     host_generateContent := fun _ _ => inl (TypeError "Failed to fetch");
     host_JSON_parse := fun _ => inr v |}.

(** A 2xx response whose first completion has the content [s]. *)
Definition completion_with (s : string) : Response :=
  {| status := 200;
     payload := inr (JObj [("choices",
                  JArr [JObj [("message", JObj [("role", JStr "assistant");
                                                ("content", JStr s)])]])]) |}.

(** What a user can do in the settings panel. *)
Inductive panel_action : Type :=
| PToggle (provider : AIProviderType)
| PApiKey (provider : AIProviderType) (key : string)
| PModel (provider : AIProviderType) (name : string)
| PLanguage (l : Language)
| PAutoAnalyze.

Definition panel_step (s : AppSettings) (a : panel_action) : AppSettings :=
  match a with
  | PToggle p => SettingsPanel.handleProviderToggle s p
  | PApiKey p k => SettingsPanel.handleApiKeyChange s p k
  | PModel p m => SettingsPanel.handleModelChange s p m
  | PLanguage l => SettingsPanel.handleLanguageChange s l
  | PAutoAnalyze => SettingsPanel.handleAutoAnalyzeToggle s
  end.

Definition panel_run (s : AppSettings) (actions : list panel_action) : AppSettings :=
  fold_left panel_step actions s.

(** The number of entries with the sentiment [x] ([None]: unclassified). *)
Definition has_sentiment (x : option Sentiment) (e : Entry) : bool :=
  match x, sentiment e with
  | Some positive, Some positive
  | Some neutral, Some neutral
  | Some negative, Some negative
  | None, None => true
  | _, _ => false
  end.

Definition sentiment_count (x : option Sentiment) (entries : list Entry) : nat :=
  length (List.filter (has_sentiment x) entries).

(** The counter name of an entry in the mood distribution. *)
Definition mood_label (e : Entry) : string :=
  match sentiment e with
  | Some x => Sentiment_name x
  | None => "unclassified"
  end.

(** An import callback that records nothing and returns. *)
Definition accept_import (l : list json) : M unit := ret tt.

(** * Properties *)


(** ** Running computations *)

Lemma bind_Return {A B} (m : M A) (k : A -> M B) h w a w' :
  m h w = (Return a, w') -> bind m k h w = k a h w'.
Proof. intros E. unfold bind. now rewrite E. Qed.

Lemma bind_Throw {A B} (m : M A) (k : A -> M B) h w e w' :
  m h w = (Throw e, w') -> bind m k h w = (Throw e, w').
Proof. intros E. unfold bind. now rewrite E. Qed.

Lemma deref_Some settings s h w :
  heap w !! settings = Some s -> deref settings h w = (Return s, w).
Proof. intros E. unfold deref. now rewrite E. Qed.

Lemma world_with_heap s : heap (world_with s) !! 0%nat = Some s.
Proof. apply lookup_singleton_eq. Qed.

(** ** Sanity checks of the string helpers *)

Example split_iso :
  split "T" "2024-03-09T08:15:00.000Z" = ["2024-03-09"; "08:15:00.000Z"].
Proof. reflexivity. Qed.

Example upper_deepseek : toUpperCase "deepseek" = "DEEPSEEK".
Proof. reflexivity. Qed.

Example includes_500 : includes "DeepSeek API Error: 500 - x" "500" = true.
Proof. reflexivity. Qed.

(** ** Preconditions of the service (C1) *)

(** C1, counterexample: with the key [" "] (one space) and the provider
    enabled, [analyzeEntry] passes both checks and calls [fetch]. *)
Lemma C1_whitespace_key_reaches_network : ~ blank_key_rejected.
Proof.
  intros H.
  destruct (H offline (world_with (settings_with deepseek " " true)) 0%nat
              (settings_with deepseek " " true) "hi" (world_with_heap _) eq_refl)
    as [e He].
  unfold analyzeEntry in He.
  rewrite (bind_Return _ _ _ _ _ _ (deref_Some _ _ _ _ (world_with_heap _))) in He.
  apply (f_equal (fun r => length (calls (snd r)))) in He.
  vm_compute in He. discriminate He.
Qed.

(** C1 (amended): when the active provider's key is the empty string,
    [analyzeEntry] and [generateReport] throw the configure-key error, and
    when the key is not empty but the provider is disabled they throw the
    not-enabled error; in both cases the world is left as it was, so no
    network call was attempted. The key check comes first: an empty key
    gives the missing-key error whatever the enabled flag. *)
Theorem C1_config_errors_before_network :
  forall (h : Host) (w : World) (settings : nat) (s : AppSettings)
         (text : string) (entries : list Entry) (reportType : ReportType),
    heap w !! settings = Some s ->
    let p := activeProvider s in
    let cfg := providers_get (providers s) p in
    (apiKey cfg = "" ->
       analyzeEntry text settings h w = (Throw (key_missing p), w) /\
       generateReport entries reportType settings h w = (Throw (key_missing p), w)) /\
    (apiKey cfg <> "" -> enabled cfg = false ->
       analyzeEntry text settings h w = (Throw (not_enabled p), w) /\
       generateReport entries reportType settings h w = (Throw (not_enabled p), w)).
Proof.
  intros h w settings s text entries reportType Hs p cfg.
  unfold analyzeEntry, generateReport.
  rewrite !(bind_Return _ _ _ _ _ _ (deref_Some _ _ _ _ Hs)).
  fold p. fold cfg. split.
  - intros ->. simpl. auto.
  - intros Hk He. apply String.eqb_neq in Hk. rewrite Hk, He. simpl. auto.
Qed.

Lemma C1_config_errors_before_network_witness :
  (analyzeEntry "hi" 0%nat offline (world_with (settings_with gemini "" false))
     = (Throw (key_missing gemini), world_with (settings_with gemini "" false)) /\
   generateReport [] weekly 0%nat offline (world_with (settings_with gemini "" false))
     = (Throw (key_missing gemini), world_with (settings_with gemini "" false))) /\
  (analyzeEntry "hi" 0%nat offline (world_with (settings_with deepseek "sk-test" false))
     = (Throw (not_enabled deepseek), world_with (settings_with deepseek "sk-test" false)) /\
   generateReport [] weekly 0%nat offline (world_with (settings_with deepseek "sk-test" false))
     = (Throw (not_enabled deepseek), world_with (settings_with deepseek "sk-test" false))).
Proof.
  split.
  - apply (C1_config_errors_before_network offline _ 0%nat
             (settings_with gemini "" false) "hi" [] weekly (world_with_heap _)).
    reflexivity.
  - apply (C1_config_errors_before_network offline _ 0%nat
             (settings_with deepseek "sk-test" false) "hi" [] weekly (world_with_heap _)).
    + discriminate.
    + reflexivity.
Defined.

(** ** The empty report (C2) *)

(** C2: with no entries, [generateReport] returns the fixed string and
    leaves the world as it was (no call is recorded), for every report
    type: in the DeepSeek adapter, in the Gemini adapter, and through the
    service for every configuration with a key and the provider enabled. *)
Theorem C2_empty_report_is_immediate :
  forall (h : Host) (w : World) (reportType : ReportType),
    (forall this, DeepSeekAdapter.generateReport this [] reportType h w
                  = (Return (JStr "没有可分析的日记条目。"), w)) /\
    (forall this, GeminiAdapter.generateReport this [] reportType h w
                  = (Return (JStr "没有可分析的日记条目。"), w)) /\
    (forall settings s,
        heap w !! settings = Some s ->
        apiKey (providers_get (providers s) (activeProvider s)) <> "" ->
        enabled (providers_get (providers s) (activeProvider s)) = true ->
        generateReport [] reportType settings h w
        = (Return (JStr "没有可分析的日记条目。"), w)).
Proof.
  intros h w reportType. split; [|split].
  - reflexivity.
  - reflexivity.
  - intros settings s Hs Hk He. unfold generateReport.
    rewrite (bind_Return _ _ _ _ _ _ (deref_Some _ _ _ _ Hs)).
    apply String.eqb_neq in Hk. rewrite Hk, He. simpl.
    unfold try_catch. now destruct (activeProvider s).
Qed.

Lemma C2_empty_report_is_immediate_witness :
  generateReport [] monthly 0%nat offline (world_with (settings_with gemini "key" true))
  = (Return (JStr "没有可分析的日记条目。"), world_with (settings_with gemini "key" true)).
Proof.
  apply (C2_empty_report_is_immediate offline _ monthly) with (s := settings_with gemini "key" true).
  - apply world_with_heap.
  - discriminate.
  - reflexivity.
Defined.

(** ** The list of models (C8) *)

(** C8: [getModels] is a total lookup that returns the two DeepSeek
    models and the three Gemini models in the stated order. *)
Theorem C8_getModels :
  getModels deepseek = ["deepseek-chat"; "deepseek-reasoner"] /\
  getModels gemini = ["gemini-2.0-flash"; "gemini-2.0-flash-lite"; "gemini-1.5-pro"].
Proof. split; reflexivity. Qed.

(** ** The adapters' requests *)

Ltac run :=
  unfold DeepSeekAdapter.generateReport, DeepSeekAdapter.analyzeEntry,
    DeepSeekAdapter.chat, GeminiAdapter.generateReport, GeminiAdapter.analyzeEntry,
    JSON_parse, fetch, generateContent, Response_json, get, index,
    try_catch, bind, record_call, lift, ret, throw; simpl.

(** Whatever the host answers, [chat] records exactly its one request and
    changes nothing else. *)
Lemma chat_world this systemPrompt userPrompt jsonMode h w :
  snd (DeepSeekAdapter.chat this systemPrompt userPrompt jsonMode h w)
  = with_call w (FetchCall (DeepSeekAdapter.chat_request this systemPrompt userPrompt jsonMode)).
Proof.
  run.
  destruct (host_fetch h _) as [e|r]; simpl; [reflexivity|].
  destruct (ok r); simpl.
  - destruct (payload r) as [e|data]; simpl; [reflexivity|].
    destruct data; simpl; try reflexivity.
    destruct (assoc "choices" fields) as [[]|]; reflexivity.
  - destruct (payload r) as [e|[]]; reflexivity.
Qed.

Lemma generateContent_world ai p h w :
  snd (generateContent ai p h w) = with_call w (GenerateContentCall ai p).
Proof. run. now destruct (host_generateContent h ai p). Qed.

Lemma split_nonempty (c : ascii) (s : string) : split c s <> [].
Proof.
  destruct s as [|a s]; simpl; [discriminate|].
  destruct (Ascii.eqb a c); [discriminate|].
  destruct (split c s); discriminate.
Qed.

Lemma split_first (c : ascii) (d rest : string) :
  has_char c d = false ->
  first_printed (split c (d +:+ String c rest)) = d.
Proof.
  induction d as [|a d IH]; simpl.
  - intros _. now rewrite Ascii.eqb_refl.
  - intros H. apply orb_false_iff in H as [Ha Hd].
    rewrite Ha. specialize (IH Hd).
    pose proof (split_nonempty c (d +:+ String c rest)) as Hne.
    destruct (split c (d +:+ String c rest)) as [|x xs]; simpl in *; congruence.
Qed.

(** ** The context of a report request (C3) *)

(** The labels of the specification are those of the first service. *)
Lemma first_service_blocks_are_english (entries : list Entry) :
  GeminiService.context entries = join SEPARATOR (map english_block entries).
Proof. reflexivity. Qed.

(** C3, counterexample: the blocks are labelled in Chinese, not with
    [Date:], [Title:] and [Content:]. *)
Lemma C3_blocks_are_not_english : ~ english_blocks.
Proof.
  intros H.
  specialize (H [entry_of "2024-03-09T08:15:00.000Z" "t" "c"]).
  assert (Hne : [entry_of "2024-03-09T08:15:00.000Z" "t" "c"] <> []) by discriminate.
  specialize (H Hne). vm_compute in H. discriminate H.
Qed.

(** C3 (amended): for a non-empty list of entries, both adapters send one
    request whose prompt is the report instruction, the header line and
    the entries' blocks joined by the separator line [---]; a block is
    [日期: <date>], [标题: <title>], [内容: <content>] on three lines, and
    for an ISO date [<date>T<time>] the date printed is the part before
    the [T]. *)
Theorem C3_report_context :
  forall (h : Host) (w : World) (entries : list Entry) (reportType : ReportType),
    entries <> [] ->
    let block := fun e : Entry =>
      "日期: " +:+ first_printed (split "T" (date e)) +:+ nl +:+
      "标题: " +:+ title e +:+ nl +:+
      "内容: " +:+ content e in
    let fullPrompt :=
      prompt (REPORT_PROMPTS reportType) +:+ nl +:+ nl +:+ "日记条目:" +:+ nl +:+
      join (nl +:+ "---" +:+ nl) (map block entries) in
    (forall this,
        calls (snd (DeepSeekAdapter.generateReport this entries reportType h w))
        = calls w ++ [FetchCall (DeepSeekAdapter.chat_request this SYSTEM_INSTRUCTION_REPORT
                                   fullPrompt false)]) /\
    (forall this,
        calls (snd (GeminiAdapter.generateReport this entries reportType h w))
        = calls w ++ [GenerateContentCall (GeminiAdapter.ai this)
                        {| gc_model := GeminiAdapter.this_model this;
                           contents := fullPrompt;
                           config := Some {| responseMimeType := None;
                                             responseSchema := None;
                                             systemInstruction := Some SYSTEM_INSTRUCTION_REPORT |} |}]) /\
    (forall e d time,
        In e entries -> date e = d +:+ "T" +:+ time -> has_char "T" d = false ->
        block e = "日期: " +:+ d +:+ nl +:+ "标题: " +:+ title e +:+ nl +:+ "内容: " +:+ content e).
Proof.
  intros h w entries reportType Hne block fullPrompt.
  destruct entries as [|e0 es]; [congruence|]. split; [|split].
  - intros this. unfold DeepSeekAdapter.generateReport.
    change (length (e0 :: es) =? 0)%nat with false. cbv iota.
    now rewrite chat_world.
  - intros this. unfold GeminiAdapter.generateReport.
    change (length (e0 :: es) =? 0)%nat with false. cbv iota.
    unfold bind.
    pose proof (generateContent_world (GeminiAdapter.ai this)
                  (GeminiAdapter.report_request this (e0 :: es) reportType) h w) as Hw.
    destruct (generateContent _ _ h w) as [[r|e] w']; simpl in Hw; subst w'; reflexivity.
  - intros e d time _ Hd HT. unfold block. rewrite Hd.
    change (d +:+ "T" +:+ time) with (d +:+ String "T" time).
    now rewrite (split_first "T" d time HT).
Qed.

Lemma C3_report_context_witness :
  calls (snd (DeepSeekAdapter.generateReport (DeepSeekAdapter.new "sk-test" "deepseek-chat")
                [entry_of "2024-03-09T08:15:00.000Z" "Walk" "Sunny."] weekly offline
                (world_with DEFAULT_SETTINGS)))
  = [FetchCall (DeepSeekAdapter.chat_request (DeepSeekAdapter.new "sk-test" "deepseek-chat")
                  SYSTEM_INSTRUCTION_REPORT
                  (prompt (REPORT_PROMPTS weekly) +:+ nl +:+ nl +:+ "日记条目:" +:+ nl +:+
                   "日期: 2024-03-09" +:+ nl +:+ "标题: Walk" +:+ nl +:+ "内容: Sunny.")
                  false)].
Proof.
  assert (Hne : [entry_of "2024-03-09T08:15:00.000Z" "Walk" "Sunny."] <> []) by discriminate.
  exact (proj1 (C3_report_context offline (world_with DEFAULT_SETTINGS)
                  [entry_of "2024-03-09T08:15:00.000Z" "Walk" "Sunny."] weekly Hne)
               (DeepSeekAdapter.new "sk-test" "deepseek-chat")).
Defined.

(** ** The key probe (C4) *)

Ltac run_with H :=
  unfold validateApiKey, DeepSeekAdapter.generateReport, DeepSeekAdapter.analyzeEntry,
    DeepSeekAdapter.chat, GeminiAdapter.generateReport, GeminiAdapter.analyzeEntry,
    fetch, generateContent, try_catch, bind, record_call, lift;
  rewrite H; unfold Response_json, get, index, lift, bind, ret, throw; simpl.

(** C4: [validateApiKey] always returns a boolean, [true] exactly when the
    probe request completes without throwing. For DeepSeek it is [false]
    when [fetch] rejects, when the status is not 2xx, when the body is not
    JSON and when the body has no [choices], and [true] for a 2xx body
    with a list of choices; for Gemini it is [false] when the SDK call
    rejects and [true] when it resolves. *)
Theorem C4_validateApiKey_never_throws :
  forall (h : Host) (w : World) (key : string),
    (forall provider, exists b : bool,
        fst (validateApiKey provider key h w) = Return b /\
        (b = true <-> exists u, fst (probe provider key h w) = Return u)) /\
    (forall e, host_fetch h (deepseek_probe_request key) = inl e ->
               fst (validateApiKey deepseek key h w) = Return false) /\
    (forall r, host_fetch h (deepseek_probe_request key) = inr r -> ok r = false ->
               fst (validateApiKey deepseek key h w) = Return false) /\
    (forall r e, host_fetch h (deepseek_probe_request key) = inr r -> ok r = true ->
                 payload r = inl e ->
                 fst (validateApiKey deepseek key h w) = Return false) /\
    (forall r data, host_fetch h (deepseek_probe_request key) = inr r -> ok r = true ->
                    payload r = inr data -> nullish (own_prop data "choices") = true ->
                    fst (validateApiKey deepseek key h w) = Return false) /\
    (forall r fields cs, host_fetch h (deepseek_probe_request key) = inr r -> ok r = true ->
                         payload r = inr (JObj fields) ->
                         assoc "choices" fields = Some (JArr cs) ->
                         fst (validateApiKey deepseek key h w) = Return true) /\
    (forall e, host_generateContent h {| genai_apiKey := key |} gemini_probe_parameters = inl e ->
               fst (validateApiKey gemini key h w) = Return false) /\
    (forall r, host_generateContent h {| genai_apiKey := key |} gemini_probe_parameters = inr r ->
               fst (validateApiKey gemini key h w) = Return true).
Proof.
  intros h w key. split; [|repeat split].
  - intros provider. unfold validateApiKey, probe, try_catch, bind.
    destruct provider; cbv zeta.
    + fold gemini_probe_parameters.
      destruct (generateContent _ gemini_probe_parameters h w) as [[u|e] w']; simpl.
      * exists true. repeat split; eauto.
      * exists false. repeat split; try discriminate. intros [u Hu]. discriminate Hu.
    + destruct (DeepSeekAdapter.chat _ _ _ _ h w) as [[u|e] w']; simpl.
      * exists true. repeat split; eauto.
      * exists false. repeat split; try discriminate. intros [u Hu]. discriminate Hu.
  - intros e H. unfold deepseek_probe_request in H. now run_with H.
  - intros r H Hok. unfold deepseek_probe_request in H. run_with H. rewrite Hok. simpl.
    destruct (payload r) as [e|[]]; reflexivity.
  - intros r e H Hok Hp. unfold deepseek_probe_request in H. run_with H.
    rewrite Hok, Hp. reflexivity.
  - intros r data H Hok Hp Hn. unfold deepseek_probe_request in H. run_with H.
    rewrite Hok, Hp. simpl.
    destruct data; simpl in *; try reflexivity.
    destruct (assoc "choices" fields) as [[]|]; simpl in *; try reflexivity; discriminate.
  - intros r fields cs H Hok Hp Hc. unfold deepseek_probe_request in H. run_with H.
    rewrite Hok, Hp. simpl. rewrite Hc. reflexivity.
  - intros e H. unfold gemini_probe_parameters in H. now run_with H.
  - intros r H. unfold gemini_probe_parameters in H. now run_with H.
Qed.

Lemma C4_validateApiKey_never_throws_witness :
  fst (validateApiKey deepseek "sk-bad" offline (world_with DEFAULT_SETTINGS)) = Return false /\
  fst (validateApiKey deepseek "sk-bad"
         (replying {| status := 401; payload := inr (JObj []) |})
         (world_with DEFAULT_SETTINGS)) = Return false /\
  fst (validateApiKey deepseek "sk-good"
         (replying {| status := 200; payload := inr (JObj [("choices", JArr [])]) |})
         (world_with DEFAULT_SETTINGS)) = Return true /\
  fst (validateApiKey gemini "key" (generating (Some "OK")) (world_with DEFAULT_SETTINGS))
  = Return true.
Proof.
  split; [|split; [|split]].
  - destruct (C4_validateApiKey_never_throws offline (world_with DEFAULT_SETTINGS) "sk-bad")
      as (_ & Hreject & _).
    apply (Hreject (TypeError "Failed to fetch")). reflexivity.
  - destruct (C4_validateApiKey_never_throws
                (replying {| status := 401; payload := inr (JObj []) |})
                (world_with DEFAULT_SETTINGS) "sk-bad")
      as (_ & _ & Hstatus & _).
    apply (Hstatus {| status := 401; payload := inr (JObj []) |}); reflexivity.
  - destruct (C4_validateApiKey_never_throws
                (replying {| status := 200; payload := inr (JObj [("choices", JArr [])]) |})
                (world_with DEFAULT_SETTINGS) "sk-good")
      as (_ & _ & _ & _ & _ & Hok & _).
    apply (Hok {| status := 200; payload := inr (JObj [("choices", JArr [])]) |}
               [("choices", JArr [])] []); reflexivity.
  - destruct (C4_validateApiKey_never_throws (generating (Some "OK"))
                (world_with DEFAULT_SETTINGS) "key")
      as (_ & _ & _ & _ & _ & _ & _ & Hresolve).
    apply (Hresolve {| response_text := Some "OK" |}). reflexivity.
Defined.

(** ** HTTP errors of the DeepSeek adapter (C5) *)

Lemma prefix_app (sub b : string) : String.prefix sub (sub +:+ b) = true.
Proof.
  induction sub as [|y sub IH]; simpl.
  - now destruct b.
  - destruct (ascii_dec y y); [exact IH|congruence].
Qed.

Lemma includes_app (a sub b : string) : includes (a +:+ sub +:+ b) sub = true.
Proof.
  induction a as [|x a IH].
  - change ("" +:+ sub +:+ b) with (sub +:+ b).
    pose proof (prefix_app sub b) as H.
    destruct (sub +:+ b); cbn [includes]; now rewrite H.
  - change (String x a +:+ sub +:+ b) with (String x (a +:+ sub +:+ b)).
    cbn [includes]. rewrite IH. apply orb_true_r.
Qed.

Lemma prefix_refl (sub : string) : String.prefix sub sub = true.
Proof.
  induction sub as [|y sub IH]; simpl; [reflexivity|].
  destruct (ascii_dec y y); [exact IH|congruence].
Qed.

Lemma includes_end (a sub : string) : includes (a +:+ sub) sub = true.
Proof.
  induction a as [|x a IH].
  - change ("" +:+ sub) with sub. pose proof (prefix_refl sub) as H.
    destruct sub; cbn [includes]; now rewrite H.
  - change (String x a +:+ sub) with (String x (a +:+ sub)).
    cbn [includes]. rewrite IH. apply orb_true_r.
Qed.

Lemma append_assoc (a b c : string) : (a +:+ b) +:+ c = a +:+ b +:+ c.
Proof.
  induction a as [|x a IH]; [reflexivity|].
  change (String x ((a +:+ b) +:+ c) = String x (a +:+ b +:+ c)). now rewrite IH.
Qed.

(** For a status outside 2xx and an error body other than [null], [chat]
    throws an [Error] whose text has the status and the vendor's message,
    or [Unknown error] when the body gives none. *)
Lemma chat_http_error this systemPrompt userPrompt jsonMode h w r :
  host_fetch h (DeepSeekAdapter.chat_request this systemPrompt userPrompt jsonMode) = inr r ->
  ok r = false ->
  payload r <> inr JNull ->
  let vendor :=
    match payload r with
    | inr body => get_opt (own_prop body "error") "message"
    | inl _ => None
    end in
  fst (DeepSeekAdapter.chat this systemPrompt userPrompt jsonMode h w)
  = Throw (Error ("DeepSeek API Error: " +:+ pretty (status r) +:+ " - " +:+
                  ToString (or_else vendor (JStr "Unknown error")))).
Proof.
  intros H Hok Hp vendor. run_with H. rewrite Hok. simpl. subst vendor.
  destruct (payload r) as [e|body] eqn:E; simpl; [reflexivity|].
  destruct body; simpl; try reflexivity. congruence.
Qed.

(** X14: for a status outside 2xx and an error body
    [{error: {message: m}}] with a non-empty [m], [chat] throws an error
    whose text has the decimal status and [m]. *)
Lemma chat_http_error_text this systemPrompt userPrompt jsonMode h w r fields inner m :
  host_fetch h (DeepSeekAdapter.chat_request this systemPrompt userPrompt jsonMode) = inr r ->
  ok r = false ->
  payload r = inr (JObj fields) ->
  assoc "error" fields = Some (JObj inner) ->
  assoc "message" inner = Some (JStr m) ->
  m <> "" ->
  exists e,
    fst (DeepSeekAdapter.chat this systemPrompt userPrompt jsonMode h w) = Throw e /\
    includes (message e) (pretty (status r)) = true /\
    includes (message e) m = true.
Proof.
  intros H Hok Hp He Hm Hne.
  assert (Hnn : payload r <> inr JNull) by (rewrite Hp; discriminate).
  rewrite (chat_http_error _ _ _ _ _ w _ H Hok Hnn). rewrite Hp. simpl.
  rewrite He. simpl. rewrite Hm. eexists. split; [reflexivity|].
  destruct m as [|c m]; [congruence|]. simpl message. split.
  - apply (includes_app "DeepSeek API Error: " (pretty (status r))).
  - rewrite <- !append_assoc. apply includes_end.
Qed.

(** The scenario of the specification: HTTP 500 with the body
    [{error: {message: server overloaded}}] makes [analyzeEntry] throw an
    error whose text has both [500] and [server overloaded]; the service
    logs it and throws it unchanged. *)
Lemma analyzeEntry_server_overloaded :
  let h := replying {| status := 500;
                       payload := inr (JObj [("error",
                                    JObj [("message", JStr "server overloaded")])]) |} in
  let r := analyzeEntry "I had a great day" 0%nat h
             (world_with (settings_with deepseek "sk-test" true)) in
  fst r = Throw (Error "DeepSeek API Error: 500 - server overloaded") /\
  includes "DeepSeek API Error: 500 - server overloaded" "500" = true /\
  includes "DeepSeek API Error: 500 - server overloaded" "server overloaded" = true /\
  console (snd r) = [("AI Analysis Failed (deepseek):",
                      Error "DeepSeek API Error: 500 - server overloaded")].
Proof. vm_compute. repeat split. Qed.

(** C5, at the failing input: for HTTP 500 with the body [null],
    [response.json()] resolves to [null], the read of its [error]
    property throws a [TypeError], and neither [chat] nor [analyzeEntry]
    reports the status: the error thrown is not the [DeepSeek API Error]
    and its text has no [500]. *)
Theorem C5_null_error_body :
  let h := replying {| status := 500; payload := inr JNull |} in
  let thrown := TypeError "Cannot read properties of null (reading 'error')" in
  fst (DeepSeekAdapter.chat (DeepSeekAdapter.new "sk-test" "deepseek-chat")
         "system" "user" false h (world_with DEFAULT_SETTINGS)) = Throw thrown /\
  fst (analyzeEntry "I had a great day" 0%nat h
         (world_with (settings_with deepseek "sk-test" true))) = Throw thrown /\
  includes (message thrown) "500" = false /\
  includes (message thrown) "Unknown error" = false.
Proof. vm_compute. repeat split. Qed.

(** ** Responses without content (C6) *)

(** X27: for a non-empty report request, when
    the Gemini response has no text (absent or empty) [generateReport]
    returns the placeholder string, and when a 2xx DeepSeek response has
    a list of choices without content [generateReport] returns the empty
    string. *)
Lemma generateReport_without_content :
  forall (h : Host) (w : World) (entries : list Entry) (reportType : ReportType),
    entries <> [] ->
    (forall this r,
        host_generateContent h (GeminiAdapter.ai this)
          (GeminiAdapter.report_request this entries reportType) = inr r ->
        response_text r = None \/ response_text r = Some "" ->
        fst (GeminiAdapter.generateReport this entries reportType h w)
        = Return (JStr "无法生成报告。")) /\
    (forall this r data,
        host_fetch h (DeepSeekAdapter.chat_request this SYSTEM_INSTRUCTION_REPORT
                        (prompt (REPORT_PROMPTS reportType) +:+ nl +:+ nl +:+ "日记条目:" +:+ nl +:+
                         report_context entries) false) = inr r ->
        ok r = true ->
        payload r = inr data ->
        choices_without_content data ->
        fst (DeepSeekAdapter.generateReport this entries reportType h w) = Return (JStr "")).
Proof.
  intros h w entries reportType Hne.
  destruct entries as [|e0 es]; [congruence|]. split.
  - intros this r H Ht. unfold GeminiAdapter.generateReport.
    change (length (e0 :: es) =? 0)%nat with false. cbv iota.
    run_with H. now destruct Ht as [-> | ->].
  - intros this r data H Hok Hp Hc. unfold DeepSeekAdapter.generateReport.
    change (length (e0 :: es) =? 0)%nat with false. cbv iota zeta.
    run_with H. rewrite Hok, Hp. simpl.
    destruct Hc as [fields Hc | fields c cs Hc Hm | fields c cs m Hc Hm Ht];
      simpl; rewrite Hc; simpl.
    + reflexivity.
    + destruct c; simpl in *; try reflexivity.
      destruct (assoc "message" fields0) as [[]|]; simpl in *; try reflexivity; discriminate.
    + destruct c; simpl in *; try discriminate. rewrite Hm.
      destruct m; simpl in *;
        try (destruct Ht as [Ht | [Ht | Ht]]; discriminate Ht); try reflexivity.
      destruct Ht as [-> | [-> | ->]]; reflexivity.
Qed.

Lemma generateReport_without_content_witness :
  fst (GeminiAdapter.generateReport (GeminiAdapter.new "key" "gemini-2.0-flash")
         [entry_of "2024-03-09T08:15:00.000Z" "Walk" "Sunny."] yearly
         (generating None) (world_with DEFAULT_SETTINGS))
  = Return (JStr "无法生成报告。") /\
  fst (DeepSeekAdapter.generateReport (DeepSeekAdapter.new "sk-test" "deepseek-chat")
         [entry_of "2024-03-09T08:15:00.000Z" "Walk" "Sunny."] yearly
         (replying {| status := 200;
                      payload := inr (JObj [("choices",
                                   JArr [JObj [("message", JObj [("role", JStr "assistant")])]])]) |})
         (world_with DEFAULT_SETTINGS))
  = Return (JStr "").
Proof.
  assert (Hne : [entry_of "2024-03-09T08:15:00.000Z" "Walk" "Sunny."] <> []) by discriminate.
  split.
  - apply (proj1 (generateReport_without_content (generating None) (world_with DEFAULT_SETTINGS)
                    _ yearly Hne)
             (GeminiAdapter.new "key" "gemini-2.0-flash") {| response_text := None |}).
    + reflexivity.
    + left. reflexivity.
  - apply (proj2 (generateReport_without_content
                    (replying {| status := 200;
                                 payload := inr (JObj [("choices",
                                   JArr [JObj [("message", JObj [("role", JStr "assistant")])]])]) |})
                    (world_with DEFAULT_SETTINGS) _ yearly Hne)
             (DeepSeekAdapter.new "sk-test" "deepseek-chat")
             {| status := 200;
                payload := inr (JObj [("choices",
                             JArr [JObj [("message", JObj [("role", JStr "assistant")])]])]) |}
             (JObj [("choices",
                     JArr [JObj [("message", JObj [("role", JStr "assistant")])]])])).
    + reflexivity.
    + reflexivity.
    + reflexivity.
    + eapply no_text; try reflexivity. left. reflexivity.
Defined.

(** C6, at the failing input: for a non-empty report request and a 2xx
    response whose body carries no content because it has no list of
    choices (the body [{}], or [choices] being [null]), the read of
    [data.choices[0]] throws a [TypeError]: the DeepSeek [generateReport]
    does not return the empty string, and the service logs the error and
    throws it. With an empty list of choices the empty string is
    returned, and the Gemini variant returns its placeholder for a
    response without text. *)
Theorem C6_missing_choices_throws :
  let entries := [entry_of "2024-03-09T08:15:00.000Z" "Walk" "Sunny."] in
  let adapter := DeepSeekAdapter.new "sk-test" "deepseek-chat" in
  let w := world_with (settings_with deepseek "sk-test" true) in
  let no_choices := replying {| status := 200; payload := inr (JObj []) |} in
  let null_choices := replying {| status := 200; payload := inr (JObj [("choices", JNull)]) |} in
  let empty_choices := replying {| status := 200; payload := inr (JObj [("choices", JArr [])]) |} in
  fst (DeepSeekAdapter.generateReport adapter entries weekly no_choices w)
  = Throw (TypeError "Cannot read properties of undefined (reading '0')") /\
  fst (DeepSeekAdapter.generateReport adapter entries weekly null_choices w)
  = Throw (TypeError "Cannot read properties of null (reading '0')") /\
  fst (generateReport entries weekly 0%nat no_choices w)
  = Throw (TypeError "Cannot read properties of undefined (reading '0')") /\
  console (snd (generateReport entries weekly 0%nat no_choices w))
  = [("Report Generation Failed (deepseek):",
      TypeError "Cannot read properties of undefined (reading '0')")] /\
  fst (DeepSeekAdapter.generateReport adapter entries weekly empty_choices w)
  = Return (JStr "") /\
  fst (GeminiAdapter.generateReport (GeminiAdapter.new "key" "gemini-2.0-flash") entries weekly
         (generating None) w)
  = Return (JStr "无法生成报告。").
Proof. vm_compute. repeat split. Qed.

(** ** Loading the settings (C7) *)

(** C7, at the failing input: settings stored before [enabled] existed
    keep their provider object as it was stored; the loaded
    [providers.deepseek] has no [enabled], although the default has one.
    Only a provider that is absent from the stored [providers] comes from
    the defaults. *)
Theorem C7_nested_field_lost :
  exists loaded,
    fst (loadSettings offline (world_storing SETTINGS_KEY (Encoded settings_without_enabled)))
    = Return loaded /\
    path loaded ["providers"; "deepseek"; "enabled"] = None /\
    path loaded ["providers"; "deepseek"; "model"] = Some (JStr "deepseek-reasoner") /\
    path DEFAULT_SETTINGS_value ["providers"; "deepseek"; "enabled"] = Some (JBool true) /\
    path loaded ["providers"; "gemini"; "enabled"] = Some (JBool false).
Proof. eexists. vm_compute. repeat split. Qed.

(** What the merge does guarantee: [loadSettings] never throws, and the
    object it returns has the four top-level fields and, under
    [providers], an entry for each provider. *)

Lemma assoc_obj_set_same {A} (k : string) (v : A) o : assoc k (obj_set k v o) = Some v.
Proof.
  induction o as [|[k' v'] o IH]; simpl.
  - now rewrite String.eqb_refl.
  - destruct (String.eqb k k') eqn:E; simpl.
    + now rewrite String.eqb_refl.
    + now rewrite E.
Qed.

Lemma assoc_obj_set_other {A} (k k' : string) (v : A) o :
  k <> k' -> assoc k' (obj_set k v o) = assoc k' o.
Proof.
  intros Hne. induction o as [|[k0 v0] o IH]; simpl.
  - destruct (String.eqb k' k) eqn:E; [|reflexivity].
    apply String.eqb_eq in E. congruence.
  - destruct (String.eqb k k0) eqn:E; simpl.
    + apply String.eqb_eq in E. subst k0.
      destruct (String.eqb k' k) eqn:E'; [|reflexivity].
      apply String.eqb_eq in E'. congruence.
    + now rewrite IH.
Qed.

Lemma assoc_obj_set_defined {A} (k k' : string) (v : A) o :
  is_Some (assoc k' o) -> is_Some (assoc k' (obj_set k v o)).
Proof.
  intros H. destruct (String.eqb_spec k k') as [->|Hne].
  - rewrite assoc_obj_set_same. eauto.
  - now rewrite assoc_obj_set_other.
Qed.

Lemma spread_defined (k : string) (v : option json) o :
  is_Some (assoc k o) -> is_Some (assoc k (spread o v)).
Proof.
  unfold spread. generalize (own_entries v). intros es. revert o.
  induction es as [|[k' v'] es IH]; simpl; intros o H; [exact H|].
  apply IH. now apply assoc_obj_set_defined.
Qed.

Lemma default_settings_shape : settings_shape DEFAULT_SETTINGS_value.
Proof. repeat split; vm_compute; eauto 10. Qed.

Lemma merged_settings_shape (parsed : json) (parsed_providers : option json) :
  settings_shape
    (JObj (obj_set "providers"
             (JObj (spread (spread [] (Some (Providers_json (providers DEFAULT_SETTINGS))))
                           parsed_providers))
             (spread (spread [] (Some DEFAULT_SETTINGS_value)) (Some parsed)))).
Proof.
  unfold settings_shape, path. cbn [fold_left get_opt nullish own_prop].
  repeat split.
  - rewrite assoc_obj_set_other by discriminate. apply spread_defined. vm_compute. eauto.
  - rewrite assoc_obj_set_other by discriminate. apply spread_defined. vm_compute. eauto.
  - rewrite assoc_obj_set_other by discriminate. apply spread_defined. vm_compute. eauto.
  - rewrite assoc_obj_set_same. eexists. split; [reflexivity|].
    split; apply spread_defined; vm_compute; eauto.
Qed.

(** X11: whatever is stored, [loadSettings] returns without throwing, and
    the object it returns has [activeProvider], [language],
    [autoAnalyze], and a [providers] object with an entry for [gemini] and
    one for [deepseek]. *)
Lemma loadSettings_shape (h : Host) (w : World) :
  exists loaded, fst (loadSettings h w) = Return loaded /\ settings_shape loaded.
Proof.
  unfold loadSettings, try_catch, bind, getItem.
  destruct (localStorage w !! SETTINGS_KEY) as [[|e|v]|];
    try (exists DEFAULT_SETTINGS_value; split; [reflexivity|apply default_settings_shape]).
  destruct (nullish (Some v)) eqn:Hn.
  - destruct v; try discriminate Hn.
    exists DEFAULT_SETTINGS_value; split; [reflexivity|apply default_settings_shape].
  - eexists; split; [|apply (merged_settings_shape v (own_prop v "providers"))].
    destruct v; try discriminate Hn; reflexivity.
Qed.

(** ** The list of reports (C10) *)

(** [loadReports] never throws; with nothing stored, or a text that does
    not parse, it returns the empty list. *)
Lemma loadReports_returns (h : Host) (w : World) :
  exists reports, fst (loadReports h w) = Return reports /\
    localStorage (snd (loadReports h w)) = localStorage w /\
    match localStorage w !! REPORTS_KEY with
    | Some (Encoded v) => reports = v
    | _ => reports = JArr []
    end.
Proof.
  unfold loadReports, try_catch, bind, getItem.
  destruct (localStorage w !! REPORTS_KEY) as [[|e|v]|]; simpl; eauto.
Qed.

(** X12: a stored value that parses but is no list makes [saveReport]
    throw a [TypeError] and store nothing. *)
Lemma saveReport_not_a_list (h : Host) (w : World) (report : Report) (v : json) :
  localStorage w !! REPORTS_KEY = Some (Encoded v) ->
  (forall l, v <> JArr l) ->
  exists e, saveReport report h w = (Throw (TypeError e), w).
Proof.
  intros Hv Hl. unfold saveReport, loadReports, try_catch, bind, getItem. rewrite Hv.
  destruct v; simpl; eauto. now destruct (Hl elems).
Qed.

(** C10: when the stored reports are a list, [saveReport] returns and
    stores the new report followed by the old ones, cut to the first 50;
    so the stored list has at most 50 reports, the saved report is its
    first, [loadReports] reads that list back, and no other key of
    localStorage changes. *)
Theorem C10_saveReport_front_and_cap :
  forall (h : Host) (w : World) (report : Report) (old : list json),
    fst (loadReports h w) = Return (JArr old) ->
    let saved := take 50 (Report_json report :: old) in
    let w' := snd (saveReport report h w) in
    fst (saveReport report h w) = Return tt /\
    localStorage w' !! REPORTS_KEY = Some (Encoded (JArr saved)) /\
    (length saved <= 50)%nat /\
    head saved = Some (Report_json report) /\
    fst (loadReports h w') = Return (JArr saved) /\
    (forall key, key <> REPORTS_KEY -> localStorage w' !! key = localStorage w !! key).
Proof.
  intros h w report old Hold saved w'.
  destruct (loadReports_returns h w) as (reports & Hr & Hls & _).
  rewrite Hold in Hr. injection Hr as <-.
  assert (Hrun : saveReport report h w
                 = setItem REPORTS_KEY (JArr saved) h (snd (loadReports h w))).
  { unfold saveReport, bind. destruct (loadReports h w) as [[v|e] w1]; simpl in *.
    - injection Hold as ->. reflexivity.
    - discriminate Hold. }
  assert (Hls' : localStorage w' = <[REPORTS_KEY := Encoded (JArr saved)]> (localStorage w)).
  { subst w'. rewrite Hrun. simpl. now rewrite Hls. }
  repeat split.
  - now rewrite Hrun.
  - rewrite Hls'. apply lookup_insert_eq.
  - subst saved. rewrite length_take. lia.
  - destruct (loadReports_returns h w') as (reports & Hr & _ & Hv).
    rewrite Hls', lookup_insert_eq in Hv. now subst reports.
  - intros key Hne. rewrite Hls'. now apply lookup_insert_ne.
Qed.

Lemma C10_saveReport_front_and_cap_witness :
  let w := world_storing REPORTS_KEY
             (Encoded (JArr (replicate 50 (Report_json (report_of "old" monthly))))) in
  let saved := take 50 (Report_json (report_of "new" weekly)
                        :: replicate 50 (Report_json (report_of "old" monthly))) in
  localStorage (snd (saveReport (report_of "new" weekly) offline w)) !! REPORTS_KEY
  = Some (Encoded (JArr saved)) /\
  (length saved <= 50)%nat /\
  head saved = Some (Report_json (report_of "new" weekly)).
Proof.
  intros w saved.
  assert (Hold : fst (loadReports offline w)
                 = Return (JArr (replicate 50 (Report_json (report_of "old" monthly))))).
  { vm_compute. reflexivity. }
  destruct (C10_saveReport_front_and_cap offline w (report_of "new" weekly) _ Hold)
    as (_ & Hstored & Hlen & Hhead & _).
  exact (conj Hstored (conj Hlen Hhead)).
Defined.

(** ** The service keeps no state (C9) *)

Lemma appended_nil w : appended w [] [] = w.
Proof. destruct w. unfold appended. simpl. now rewrite !app_nil_r. Qed.

Lemma appended_appended w cs lg cs' lg' :
  appended (appended w cs lg) cs' lg' = appended w (cs ++ cs') (lg ++ lg').
Proof. unfold appended. simpl. now rewrite !app_assoc. Qed.

Lemma stateless_ret {A} (a : A) : stateless (ret a).
Proof. intros h w. exists (Return a), [], []. intros w' _. now rewrite appended_nil. Qed.

Lemma stateless_throw {A} (e : exn) : stateless (@throw A e).
Proof. intros h w. exists (Throw e), [], []. intros w' _. now rewrite appended_nil. Qed.

Lemma stateless_lift {A} (r : exn + A) : stateless (lift r).
Proof. destruct r; [apply stateless_throw|apply stateless_ret]. Qed.

Lemma stateless_bind {A B} (m : M A) (k : A -> M B) :
  stateless m -> (forall a, stateless (k a)) -> stateless (bind m k).
Proof.
  intros Hm Hk h w. destruct (Hm h w) as (r & cs & lg & Hr).
  destruct r as [a|e].
  - destruct (Hk a h w) as (r2 & cs2 & lg2 & Hr2).
    exists r2, (cs ++ cs2), (lg ++ lg2). intros w' Hw'.
    unfold bind. rewrite (Hr w' Hw'), (Hr2 (appended w' cs lg) Hw').
    now rewrite appended_appended.
  - exists (Throw e), cs, lg. intros w' Hw'. unfold bind. now rewrite (Hr w' Hw').
Qed.

Lemma stateless_try_catch {A} (m : M A) (handler : exn -> M A) :
  stateless m -> (forall e, stateless (handler e)) -> stateless (try_catch m handler).
Proof.
  intros Hm Hk h w. destruct (Hm h w) as (r & cs & lg & Hr).
  destruct r as [a|e].
  - exists (Return a), cs, lg. intros w' Hw'. unfold try_catch. now rewrite (Hr w' Hw').
  - destruct (Hk e h w) as (r2 & cs2 & lg2 & Hr2).
    exists r2, (cs ++ cs2), (lg ++ lg2). intros w' Hw'.
    unfold try_catch. rewrite (Hr w' Hw'), (Hr2 (appended w' cs lg) Hw').
    now rewrite appended_appended.
Qed.

Lemma stateless_host {A} (f : Host -> M A) :
  (forall h, stateless (f h)) -> stateless (fun h => f h h).
Proof. intros H h w. apply (H h h w). Qed.

Lemma stateless_record_call c : stateless (record_call c).
Proof.
  intros h w. exists (Return tt), [c], []. intros w' _.
  unfold record_call, appended. now rewrite app_nil_r.
Qed.

Lemma stateless_console_error label e : stateless (console_error label e).
Proof.
  intros h w. exists (Return tt), [], [(label, e)]. intros w' _.
  unfold console_error, appended. now rewrite app_nil_r.
Qed.

Lemma stateless_deref settings : stateless (deref settings).
Proof.
  intros h w. exists (fst (deref settings h w)), [], []. intros w' Hw'.
  rewrite appended_nil. unfold deref. rewrite Hw'.
  now destruct (heap w !! settings).
Qed.

Lemma stateless_fetch r : stateless (fetch r).
Proof.
  apply (stateless_host (fun h => record_call (FetchCall r) ;;; lift (host_fetch h r))).
  intros h. apply stateless_bind; [apply stateless_record_call|].
  intros _. apply stateless_lift.
Qed.

Lemma stateless_generateContent ai p : stateless (generateContent ai p).
Proof.
  apply (stateless_host
           (fun h => record_call (GenerateContentCall ai p) ;;; lift (host_generateContent h ai p))).
  intros h. apply stateless_bind; [apply stateless_record_call|].
  intros _. apply stateless_lift.
Qed.

Lemma stateless_JSON_parse v : stateless (JSON_parse v).
Proof. apply (stateless_host (fun h => lift (host_JSON_parse h v))). intros h. apply stateless_lift. Qed.

Lemma stateless_get v k : stateless (get v k).
Proof.
  unfold get. destruct v as [x|]; [|apply stateless_throw].
  destruct (nullish (Some x)); [apply stateless_throw|apply stateless_ret].
Qed.

Lemma stateless_index v i : stateless (index v i).
Proof.
  unfold index. destruct v as [x|]; [|apply stateless_throw].
  destruct (nullish (Some x)); [apply stateless_throw|apply stateless_ret].
Qed.

Create HintDb stateless.
#[local] Hint Resolve stateless_ret stateless_throw stateless_lift stateless_record_call
  stateless_console_error stateless_deref stateless_fetch stateless_generateContent
  stateless_JSON_parse stateless_get stateless_index : stateless.

Ltac stateless_step :=
  match goal with
  | |- stateless (bind _ _) => apply stateless_bind; [|intros ?]
  | |- stateless (try_catch _ _) => apply stateless_try_catch; [|intros ?]
  | |- stateless (if ?b then _ else _) => destruct b
  | |- stateless (match ?x with Some _ => _ | None => _ end) => destruct x
  | |- stateless (match ?x with gemini => _ | deepseek => _ end) => destruct x
  | |- stateless (Response_json _) => apply stateless_lift
  | |- _ => solve [auto with stateless]
  end.

Lemma stateless_chat this systemPrompt userPrompt jsonMode :
  stateless (DeepSeekAdapter.chat this systemPrompt userPrompt jsonMode).
Proof. unfold DeepSeekAdapter.chat. repeat stateless_step. Qed.

Lemma stateless_deepseek_analyzeEntry this text :
  stateless (DeepSeekAdapter.analyzeEntry this text).
Proof.
  unfold DeepSeekAdapter.analyzeEntry. cbv zeta.
  apply stateless_bind; [apply stateless_chat|auto with stateless].
Qed.

Lemma stateless_deepseek_generateReport this entries reportType :
  stateless (DeepSeekAdapter.generateReport this entries reportType).
Proof.
  unfold DeepSeekAdapter.generateReport. cbv zeta.
  destruct (length entries =? 0)%nat; [auto with stateless|apply stateless_chat].
Qed.

Lemma stateless_gemini_analyzeEntry this text :
  stateless (GeminiAdapter.analyzeEntry this text).
Proof. unfold GeminiAdapter.analyzeEntry. repeat stateless_step. Qed.

Lemma stateless_gemini_generateReport this entries reportType :
  stateless (GeminiAdapter.generateReport this entries reportType).
Proof. unfold GeminiAdapter.generateReport. repeat stateless_step. Qed.

Lemma stateless_analyzeEntry text settings : stateless (analyzeEntry text settings).
Proof.
  unfold analyzeEntry. apply stateless_bind; [auto with stateless|]. intros s. cbv zeta.
  repeat stateless_step;
    auto using stateless_deepseek_analyzeEntry, stateless_gemini_analyzeEntry.
Qed.

Lemma stateless_generateReport entries reportType settings :
  stateless (generateReport entries reportType settings).
Proof.
  unfold generateReport. apply stateless_bind; [auto with stateless|]. intros s. cbv zeta.
  repeat stateless_step;
    auto using stateless_deepseek_generateReport, stateless_gemini_generateReport.
Qed.

Lemma stateless_validateApiKey provider key : stateless (validateApiKey provider key).
Proof.
  unfold validateApiKey. destruct provider; cbv zeta;
    repeat stateless_step; apply stateless_chat.
Qed.

Lemma stateless_frame {A} (m : M A) :
  stateless m ->
  forall h w, heap (snd (m h w)) = heap w /\ localStorage (snd (m h w)) = localStorage w.
Proof.
  intros Hm h w. destruct (Hm h w) as (r & cs & lg & Hr).
  rewrite (Hr w eq_refl). split; reflexivity.
Qed.

Lemma rethrow_calls {A} (m : M A) (label : string) h w :
  calls (snd (try_catch m (fun e => console_error label e ;;; throw e) h w))
  = calls (snd (m h w)).
Proof. unfold try_catch. now destruct (m h w) as [[a|e] w']. Qed.

Lemma deepseek_analyzeEntry_calls this text h w :
  calls (snd (DeepSeekAdapter.analyzeEntry this text h w))
  = calls w ++ [FetchCall (DeepSeekAdapter.chat_request this SYSTEM_INSTRUCTION_ANALYSIS
                             (ANALYSIS_PROMPT +:+ text +:+ ANALYSIS_FORMAT) true)].
Proof.
  unfold DeepSeekAdapter.analyzeEntry. cbv zeta. unfold bind.
  pose proof (chat_world this SYSTEM_INSTRUCTION_ANALYSIS
                (ANALYSIS_PROMPT +:+ text +:+ ANALYSIS_FORMAT) true h w) as Hw.
  destruct (DeepSeekAdapter.chat _ _ _ _ h w) as [[v|e] w']; simpl in Hw; subst w';
    [|reflexivity].
  unfold JSON_parse. now destruct (host_JSON_parse h v).
Qed.

Lemma gemini_analyzeEntry_calls this text h w :
  calls (snd (GeminiAdapter.analyzeEntry this text h w))
  = calls w ++ [GenerateContentCall (GeminiAdapter.ai this)
                  (GeminiAdapter.analyze_request this text)].
Proof.
  unfold GeminiAdapter.analyzeEntry, bind.
  pose proof (generateContent_world (GeminiAdapter.ai this)
                (GeminiAdapter.analyze_request this text) h w) as Hw.
  destruct (generateContent _ _ h w) as [[r|e] w']; simpl in Hw; subst w'; [|reflexivity].
  destruct (response_text r) as [t|]; [|reflexivity].
  destruct (String.eqb t ""); [reflexivity|].
  unfold JSON_parse. now destruct (host_JSON_parse h (JStr t)).
Qed.

Lemma deepseek_generateReport_calls this e0 es reportType h w :
  calls (snd (DeepSeekAdapter.generateReport this (e0 :: es) reportType h w))
  = calls w ++ [FetchCall (DeepSeekAdapter.chat_request this SYSTEM_INSTRUCTION_REPORT
                             (prompt (REPORT_PROMPTS reportType) +:+ nl +:+ nl +:+
                              "日记条目:" +:+ nl +:+ report_context (e0 :: es)) false)].
Proof.
  unfold DeepSeekAdapter.generateReport.
  change (length (e0 :: es) =? 0)%nat with false. cbv iota zeta. now rewrite chat_world.
Qed.

Lemma gemini_generateReport_calls this e0 es reportType h w :
  calls (snd (GeminiAdapter.generateReport this (e0 :: es) reportType h w))
  = calls w ++ [GenerateContentCall (GeminiAdapter.ai this)
                  (GeminiAdapter.report_request this (e0 :: es) reportType)].
Proof.
  unfold GeminiAdapter.generateReport.
  change (length (e0 :: es) =? 0)%nat with false. cbv iota. unfold bind.
  pose proof (generateContent_world (GeminiAdapter.ai this)
                (GeminiAdapter.report_request this (e0 :: es) reportType) h w) as Hw.
  destruct (generateContent _ _ h w) as [[r|e] w']; simpl in Hw; subst w'; reflexivity.
Qed.

(** C9: [analyzeEntry], [generateReport] and [validateApiKey] keep no
    state: their result, calls and log lines depend on the host and on
    the objects in the heap only, and they leave the heap, where the
    settings object lives, and localStorage as they were. The call that a
    checked [analyzeEntry] or [generateReport] makes is the request of the
    adapter of the active provider of the settings it was given, built
    with that provider's key and model. ([getModels] and
    [getReportTypeInfo] are functions of their argument alone.) *)
Theorem C9_service_keeps_no_state :
  (forall text settings, stateless (analyzeEntry text settings)) /\
  (forall entries reportType settings, stateless (generateReport entries reportType settings)) /\
  (forall provider key, stateless (validateApiKey provider key)) /\
  (forall h w text entries reportType settings,
      heap (snd (analyzeEntry text settings h w)) = heap w /\
      heap (snd (generateReport entries reportType settings h w)) = heap w) /\
  (forall h w text entries reportType settings s,
      heap w !! settings = Some s ->
      apiKey (providers_get (providers s) (activeProvider s)) <> "" ->
      enabled (providers_get (providers s) (activeProvider s)) = true ->
      calls (snd (analyzeEntry text settings h w)) = calls w ++ [analysis_call s text] /\
      (entries <> [] ->
       calls (snd (generateReport entries reportType settings h w))
       = calls w ++ [report_call s entries reportType])).
Proof.
  split; [exact stateless_analyzeEntry|].
  split; [exact stateless_generateReport|].
  split; [exact stateless_validateApiKey|].
  split.
  - intros h w text entries reportType settings. split.
    + apply (stateless_frame _ (stateless_analyzeEntry text settings)).
    + apply (stateless_frame _ (stateless_generateReport entries reportType settings)).
  - intros h w text entries reportType settings s Hs Hk He.
    apply String.eqb_neq in Hk. split.
    + unfold analyzeEntry, analysis_call.
      rewrite (bind_Return _ _ _ _ _ _ (deref_Some _ _ _ _ Hs)).
      cbv beta zeta. rewrite Hk, He. change (negb true) with false. cbv iota.
      rewrite rethrow_calls. destruct (activeProvider s).
      * apply gemini_analyzeEntry_calls.
      * apply deepseek_analyzeEntry_calls.
    + intros Hne. destruct entries as [|e0 es]; [congruence|].
      unfold generateReport, report_call.
      rewrite (bind_Return _ _ _ _ _ _ (deref_Some _ _ _ _ Hs)).
      cbv beta zeta. rewrite Hk, He. change (negb true) with false. cbv iota.
      rewrite rethrow_calls. destruct (activeProvider s).
      * apply gemini_generateReport_calls.
      * apply deepseek_generateReport_calls.
Qed.

Lemma C9_service_keeps_no_state_witness :
  calls (snd (analyzeEntry "I had a great day" 0%nat offline
                (world_with (settings_with gemini "key" true))))
  = [GenerateContentCall {| genai_apiKey := "key" |}
       (GeminiAdapter.analyze_request (GeminiAdapter.new "key" "gemini-2.0-flash")
          "I had a great day")].
Proof.
  destruct C9_service_keeps_no_state as (_ & _ & _ & _ & Hcall).
  destruct (Hcall offline (world_with (settings_with gemini "key" true))
              "I had a great day" [] weekly 0%nat (settings_with gemini "key" true))
    as [Ha _].
  - apply world_with_heap.
  - discriminate.
  - reflexivity.
  - exact Ha.
Defined.

(** ** The stored entries and reports: typed lists *)

Section TypedLists.
Context {A : Type} (to_json : A -> json) (key : A -> string).
Hypothesis id_of_json : forall x, own_prop (to_json x) "id" = Some (JStr (key x)).

Lemma typed_not_nullish x : nullish (Some (to_json x)) = false.
Proof.
  specialize (id_of_json x). destruct (to_json x); try reflexivity. discriminate.
Qed.

Lemma id_is_typed id x h w :
  (v <- get (Some (to_json x)) "id" ;; ret (strict_eq_string v id)) h w
  = (Return (String.eqb (key x) id), w).
Proof.
  unfold bind, get. rewrite typed_not_nullish. unfold ret. now rewrite id_of_json.
Qed.

Lemma id_is_not_typed id x h w :
  (v <- get (Some (to_json x)) "id" ;; ret (negb (strict_eq_string v id))) h w
  = (Return (negb (String.eqb (key x) id)), w).
Proof.
  unfold bind, get. rewrite typed_not_nullish. unfold ret. now rewrite id_of_json.
Qed.

Lemma findIndex_typed id xs h w :
  findIndex (fun e => v <- get (Some e) "id" ;; ret (strict_eq_string v id))
            (map to_json xs) h w
  = (Return (index_of key id xs), w).
Proof.
  induction xs as [|x xs IH]; [reflexivity|].
  cbn [map findIndex index_of].
  erewrite bind_Return; [|apply id_is_typed].
  destruct (String.eqb (key x) id); [reflexivity|].
  erewrite bind_Return; [|apply IH]. reflexivity.
Qed.

Lemma filter_typed id xs h w :
  filter_array (fun e => v <- get (Some e) "id" ;; ret (negb (strict_eq_string v id)))
               (map to_json xs) h w
  = (Return (map to_json (without key id xs)), w).
Proof.
  induction xs as [|x xs IH]; [reflexivity|].
  cbn [map filter_array].
  erewrite bind_Return; [|apply id_is_not_typed].
  erewrite bind_Return; [|apply IH].
  unfold without. cbn [List.filter].
  destruct (negb (String.eqb (key x) id)); reflexivity.
Qed.

Lemma index_of_Some id xs i :
  index_of key id xs = Some i ->
  exists x, xs !! i = Some x /\ key x = id /\
            forall j y, (j < i)%nat -> xs !! j = Some y -> key y <> id.
Proof.
  revert i. induction xs as [|x xs IH]; intros i; cbn [index_of]; [discriminate|].
  destruct (String.eqb_spec (key x) id) as [E|E].
  - intros [= <-]. exists x. repeat split; auto. intros j y Hj. lia.
  - destruct (index_of key id xs) as [i'|] eqn:Ei; [|discriminate].
    intros [= <-]. destruct (IH i' eq_refl) as (y & Hy & Hk & Hb).
    exists y. repeat split; auto. intros [|j] z Hj Hz.
    + injection Hz as <-. exact E.
    + apply (Hb j z); [lia|exact Hz].
Qed.

Lemma index_of_None id xs :
  index_of key id xs = None <-> Forall (fun x => key x <> id) xs.
Proof.
  induction xs as [|x xs IH]; cbn [index_of].
  - split; auto.
  - destruct (String.eqb_spec (key x) id) as [E|E].
    + split; [discriminate|]. intros H. inversion H; subst. congruence.
    + destruct (index_of key id xs) as [i'|] eqn:Ei.
      * split; [discriminate|]. intros H. inversion H; subst.
        apply IH in H3. discriminate.
      * split; auto. intros _. constructor; [exact E|]. now apply IH.
Qed.

Lemma without_all id xs : Forall (fun x => key x <> id) xs -> without key id xs = xs.
Proof.
  induction 1 as [|x xs Hx _ IH]; [reflexivity|].
  unfold without in *. cbn [List.filter].
  apply String.eqb_neq in Hx. rewrite Hx. cbn [negb]. now rewrite IH.
Qed.

Lemma without_index_of id xs : index_of key id (without key id xs) = None.
Proof.
  induction xs as [|x xs IH]; [reflexivity|].
  unfold without in *. cbn [List.filter].
  destruct (String.eqb (key x) id) eqn:E; cbn [negb]; [exact IH|].
  cbn [index_of]. rewrite E. now rewrite IH.
Qed.

Lemma without_app id xs ys :
  without key id (xs ++ ys) = without key id xs ++ without key id ys.
Proof. unfold without. apply List.filter_app. Qed.

Lemma without_insert id xs i x y :
  xs !! i = Some y -> key y = id -> key x = id ->
  without key id (<[i := x]> xs) = without key id xs.
Proof.
  revert i. induction xs as [|z xs IH]; intros [|i] Hi Hy Hx; try discriminate.
  - injection Hi as ->. unfold without. cbn [List.filter].
    change (<[0%nat := x]> (y :: xs)) with (x :: xs). cbn [List.filter].
    apply String.eqb_eq in Hy, Hx. now rewrite Hy, Hx.
  - change (<[S i := x]> (z :: xs)) with (z :: <[i := x]> xs).
    unfold without in *. cbn [List.filter]. now rewrite (IH i Hi Hy Hx).
Qed.

Lemma map_insert_json (xs : list A) i x :
  map to_json (<[i := x]> xs) = <[i := to_json x]> (map to_json xs).
Proof.
  revert i. induction xs as [|y xs IH]; intros [|i]; try reflexivity.
  cbn. now rewrite IH.
Qed.
End TypedLists.

Section Upsert.
Context {A : Type} (key : A -> string).

Lemma index_of_ext id (xs ys : list A) :
  map key xs = map key ys -> index_of key id xs = index_of key id ys.
Proof.
  revert ys. induction xs as [|x xs IH]; intros [|y ys] H; try discriminate; [reflexivity|].
  injection H as Hk Ht. cbn [index_of]. now rewrite Hk, (IH ys Ht).
Qed.

Lemma map_key_insert x xs i :
  index_of key (key x) xs = Some i -> map key (<[i := x]> xs) = map key xs.
Proof.
  revert i. induction xs as [|y xs IH]; intros i; cbn [index_of]; [discriminate|].
  destruct (String.eqb_spec (key y) (key x)) as [E|E].
  - intros [= <-]. change (<[0%nat := x]> (y :: xs)) with (x :: xs).
    cbn [map]. now rewrite E.
  - destruct (index_of key (key x) xs) as [i'|]; [|discriminate].
    intros [= <-]. change (<[S i' := x]> (y :: xs)) with (y :: <[i' := x]> xs).
    cbn [map]. now rewrite (IH i' eq_refl).
Qed.

Lemma index_of_app_new id xs x :
  index_of key id xs = None -> key x = id ->
  index_of key id (xs ++ [x]) = Some (length xs).
Proof.
  intros H Hx. induction xs as [|y xs IH]; cbn [index_of app length] in *.
  - apply String.eqb_eq in Hx. now rewrite Hx.
  - destruct (String.eqb (key y) id); [discriminate|].
    destruct (index_of key id xs); [discriminate|]. now rewrite (IH eq_refl).
Qed.

Lemma upsert_found x xs :
  exists i, index_of key (key x) (upsert key x xs) = Some i /\
            upsert key x xs !! i = Some x.
Proof.
  unfold upsert. destruct (index_of key (key x) xs) as [i|] eqn:E.
  - exists i. split.
    + rewrite <- E. apply index_of_ext. now apply map_key_insert.
    + apply list_lookup_insert_eq.
      destruct (index_of_Some key _ _ _ E) as (y & Hy & _).
      now apply lookup_lt_Some in Hy.
  - exists (length xs). split.
    + now apply index_of_app_new.
    + rewrite lookup_app_r by lia. now rewrite Nat.sub_diag.
Qed.

Lemma upsert_idempotent x xs : upsert key x (upsert key x xs) = upsert key x xs.
Proof.
  destruct (upsert_found x xs) as (i & Hi & Hx).
  unfold upsert at 1. rewrite Hi. now apply list_insert_id.
Qed.

Lemma upsert_without x xs :
  without key (key x) (upsert key x xs) = without key (key x) xs.
Proof.
  unfold upsert. destruct (index_of key (key x) xs) as [i|] eqn:E.
  - destruct (index_of_Some key _ _ _ E) as (y & Hy & Hk & _).
    now apply (without_insert key _ _ _ _ y).
  - rewrite without_app. unfold without at 2. cbn [List.filter].
    rewrite String.eqb_refl. cbn [negb]. apply app_nil_r.
Qed.

Lemma upsert_NoDup x xs :
  NoDup (map key xs) -> NoDup (map key (upsert key x xs)).
Proof.
  intros H. unfold upsert. destruct (index_of key (key x) xs) as [i|] eqn:E.
  - now rewrite map_key_insert.
  - rewrite map_app. cbn [map]. apply NoDup_app. split; [exact H|]. split.
    + intros k Hk Hx. apply list_elem_of_singleton in Hx. subst k.
      apply index_of_None in E. apply list_elem_of_In, in_map_iff in Hk.
      destruct Hk as (y & Hy & Hin). rewrite Forall_forall in E.
      apply (E y); [now apply list_elem_of_In|exact Hy].
    + apply NoDup_singleton.
Qed.

Lemma upsert_length x xs :
  length (upsert key x xs) =
  match index_of key (key x) xs with
  | Some _ => length xs
  | None => S (length xs)
  end.
Proof.
  unfold upsert. destruct (index_of key (key x) xs).
  - apply length_insert.
  - rewrite length_app. cbn. lia.
Qed.
End Upsert.

Lemma Entry_json_id e : own_prop (Entry_json e) "id" = Some (JStr (entry_id e)).
Proof. reflexivity. Qed.

Lemma Report_json_id r : own_prop (Report_json r) "id" = Some (JStr (report_id r)).
Proof. reflexivity. Qed.

Lemma loadEntries_listed h w :
  fst (loadEntries h w) = Return (listed STORAGE_KEY w) /\
  localStorage (snd (loadEntries h w)) = localStorage w.
Proof.
  unfold loadEntries, listed, try_catch, bind, getItem.
  destruct (localStorage w !! STORAGE_KEY) as [[|e|v]|]; simpl; auto.
Qed.

Lemma loadReports_listed h w :
  fst (loadReports h w) = Return (listed REPORTS_KEY w) /\
  localStorage (snd (loadReports h w)) = localStorage w.
Proof.
  unfold loadReports, listed, try_catch, bind, getItem.
  destruct (localStorage w !! REPORTS_KEY) as [[|e|v]|]; simpl; auto.
Qed.

Lemma listed_insert key v w w' :
  localStorage w' = <[key := Encoded v]> (localStorage w) -> listed key w' = v.
Proof. intros H. unfold listed. now rewrite H, lookup_insert_eq. Qed.

Lemma listed_insert_other key key' v w w' :
  key <> key' ->
  localStorage w' = <[key := Encoded v]> (localStorage w) -> listed key' w' = listed key' w.
Proof. intros Hne H. unfold listed. now rewrite H, lookup_insert_ne. Qed.

Lemma saveEntry_run h w e es :
  fst (loadEntries h w) = Return (JArr (map Entry_json es)) ->
  fst (saveEntry e h w) = Return tt /\
  localStorage (snd (saveEntry e h w))
  = <[STORAGE_KEY := Encoded (JArr (map Entry_json (upsert entry_id e es)))]> (localStorage w).
Proof.
  intros H. destruct (loadEntries_listed h w) as [_ Hls].
  assert (E : saveEntry e h w
              = setItem STORAGE_KEY (JArr (map Entry_json (upsert entry_id e es))) h
                  (snd (loadEntries h w))).
  { unfold saveEntry. unfold bind at 1.
    destruct (loadEntries h w) as [[v|x] w1]; simpl in H; [|discriminate].
    injection H as ->.
    erewrite bind_Return; [|apply (findIndex_typed Entry_json entry_id Entry_json_id)].
    unfold upsert. cbv beta zeta.
    destruct (index_of entry_id (entry_id e) es).
    - now rewrite map_insert_json.
    - now rewrite map_app. }
  rewrite E. unfold setItem. simpl. now rewrite Hls.
Qed.

Lemma deleteEntry_run h w id es :
  fst (loadEntries h w) = Return (JArr (map Entry_json es)) ->
  fst (deleteEntry id h w) = Return tt /\
  localStorage (snd (deleteEntry id h w))
  = <[STORAGE_KEY := Encoded (JArr (map Entry_json (without entry_id id es)))]> (localStorage w).
Proof.
  intros H. destruct (loadEntries_listed h w) as [_ Hls].
  assert (E : deleteEntry id h w
              = setItem STORAGE_KEY (JArr (map Entry_json (without entry_id id es))) h
                  (snd (loadEntries h w))).
  { unfold deleteEntry. unfold bind at 1.
    destruct (loadEntries h w) as [[v|x] w1]; simpl in H; [|discriminate].
    injection H as ->.
    erewrite bind_Return; [|apply (filter_typed Entry_json entry_id Entry_json_id)].
    reflexivity. }
  rewrite E. unfold setItem. simpl. now rewrite Hls.
Qed.

Lemma deleteReport_run h w id rs :
  fst (loadReports h w) = Return (JArr (map Report_json rs)) ->
  fst (deleteReport id h w) = Return tt /\
  localStorage (snd (deleteReport id h w))
  = <[REPORTS_KEY := Encoded (JArr (map Report_json (without report_id id rs)))]> (localStorage w).
Proof.
  intros H. destruct (loadReports_listed h w) as [_ Hls].
  assert (E : deleteReport id h w
              = setItem REPORTS_KEY (JArr (map Report_json (without report_id id rs))) h
                  (snd (loadReports h w))).
  { unfold deleteReport. unfold bind at 1.
    destruct (loadReports h w) as [[v|x] w1]; simpl in H; [|discriminate].
    injection H as ->.
    erewrite bind_Return; [|apply (filter_typed Report_json report_id Report_json_id)].
    reflexivity. }
  rewrite E. unfold setItem. simpl. now rewrite Hls.
Qed.

Lemma map_take {A B} (f : A -> B) n (l : list A) : map f (take n l) = take n (map f l).
Proof. revert l. induction n as [|n IH]; intros [|x l]; cbn; try reflexivity. now rewrite IH. Qed.

Lemma saveReport_run h w r rs :
  fst (loadReports h w) = Return (JArr (map Report_json rs)) ->
  fst (saveReport r h w) = Return tt /\
  localStorage (snd (saveReport r h w))
  = <[REPORTS_KEY := Encoded (JArr (map Report_json (take 50 (r :: rs))))]> (localStorage w).
Proof.
  intros H. destruct (loadReports_listed h w) as [_ Hls].
  assert (E : saveReport r h w
              = setItem REPORTS_KEY (JArr (map Report_json (take 50 (r :: rs)))) h
                  (snd (loadReports h w))).
  { unfold saveReport. unfold bind at 1.
    destruct (loadReports h w) as [[v|x] w1]; simpl in H; [|discriminate].
    injection H as ->. cbv beta zeta. now rewrite map_take. }
  rewrite E. unfold setItem. simpl. now rewrite Hls.
Qed.

Lemma loadEntries_after h w w' v :
  localStorage w' = <[STORAGE_KEY := Encoded v]> (localStorage w) ->
  fst (loadEntries h w') = Return v.
Proof.
  intros H. destruct (loadEntries_listed h w') as [-> _].
  now rewrite (listed_insert STORAGE_KEY v w w' H).
Qed.

Lemma loadReports_after h w w' v :
  localStorage w' = <[REPORTS_KEY := Encoded v]> (localStorage w) ->
  fst (loadReports h w') = Return v.
Proof.
  intros H. destruct (loadReports_listed h w') as [-> _].
  now rewrite (listed_insert REPORTS_KEY v w w' H).
Qed.

Lemma world_of_entries_loads h es :
  fst (loadEntries h (world_of_entries es)) = Return (JArr (map Entry_json es)).
Proof.
  destruct (loadEntries_listed h (world_of_entries es)) as [-> _].
  unfold listed, world_of_entries, world_storing. simpl. now rewrite lookup_singleton_eq.
Qed.

(** X1: when the stored entries are a list of entries, [saveEntry] returns
    and a following [loadEntries] reads a list in which the saved entry
    stands at the first position of its id: in place of the entry that
    had the id, or at the end when no entry had it. *)
Theorem saveEntry_read_back :
  forall (h : Host) (w : World) (e : Entry) (es : list Entry),
    fst (loadEntries h w) = Return (JArr (map Entry_json es)) ->
    fst (saveEntry e h w) = Return tt /\
    exists es',
      fst (loadEntries h (snd (saveEntry e h w))) = Return (JArr (map Entry_json es')) /\
      (forall i, index_of entry_id (entry_id e) es = Some i -> es' = <[i := e]> es) /\
      (index_of entry_id (entry_id e) es = None -> es' = es ++ [e]) /\
      exists i, index_of entry_id (entry_id e) es' = Some i /\ es' !! i = Some e.
Proof.
  intros h w e es H. destruct (saveEntry_run h w e es H) as [Hr Hls].
  split; [exact Hr|]. exists (upsert entry_id e es). split; [|split; [|split]].
  - now apply (loadEntries_after h w).
  - intros i Hi. unfold upsert. now rewrite Hi.
  - intros Hi. unfold upsert. now rewrite Hi.
  - apply upsert_found.
Qed.

Lemma saveEntry_read_back_witness :
  exists es',
    fst (loadEntries offline
           (snd (saveEntry (entry_named "b" "new") offline
                   (world_of_entries [entry_named "a" "A"; entry_named "b" "B"]))))
    = Return (JArr (map Entry_json es')) /\
    es' = [entry_named "a" "A"; entry_named "b" "new"].
Proof.
  destruct (saveEntry_read_back offline
              (world_of_entries [entry_named "a" "A"; entry_named "b" "B"])
              (entry_named "b" "new") [entry_named "a" "A"; entry_named "b" "B"]
              (world_of_entries_loads _ _))
    as (_ & es' & Hload & Hin & _).
  exists es'. split; [exact Hload|]. exact (Hin 1%nat eq_refl).
Defined.

(** X2: [saveEntry] leaves the entries with another id as they were and
    in their order, changes the number of entries by one only when the id
    is new, and keeps the ids distinct when they were. *)
Theorem saveEntry_keeps_others :
  forall (h : Host) (w : World) (e : Entry) (es : list Entry),
    fst (loadEntries h w) = Return (JArr (map Entry_json es)) ->
    exists es',
      fst (loadEntries h (snd (saveEntry e h w))) = Return (JArr (map Entry_json es')) /\
      without entry_id (entry_id e) es' = without entry_id (entry_id e) es /\
      length es' = match index_of entry_id (entry_id e) es with
                   | Some _ => length es
                   | None => S (length es)
                   end /\
      (NoDup (map entry_id es) -> NoDup (map entry_id es')).
Proof.
  intros h w e es H. destruct (saveEntry_run h w e es H) as [_ Hls].
  exists (upsert entry_id e es). split; [|split; [|split]].
  - now apply (loadEntries_after h w).
  - apply upsert_without.
  - apply upsert_length.
  - apply upsert_NoDup.
Qed.

Lemma saveEntry_keeps_others_witness :
  exists es',
    fst (loadEntries offline
           (snd (saveEntry (entry_named "c" "C") offline
                   (world_of_entries [entry_named "a" "A"; entry_named "b" "B"]))))
    = Return (JArr (map Entry_json es')) /\
    length es' = 3%nat /\ NoDup (map entry_id es').
Proof.
  destruct (saveEntry_keeps_others offline
              (world_of_entries [entry_named "a" "A"; entry_named "b" "B"])
              (entry_named "c" "C") [entry_named "a" "A"; entry_named "b" "B"]
              (world_of_entries_loads _ _))
    as (es' & Hload & _ & Hlen & Hnd).
  exists es'. split; [exact Hload|]. split; [exact Hlen|].
  apply Hnd. apply (bool_decide_unpack _). vm_compute. exact I.
Defined.

(** X3: saving the same entry twice stores what saving it once stores. *)
Theorem saveEntry_idempotent :
  forall (h : Host) (w : World) (e : Entry) (es : list Entry),
    fst (loadEntries h w) = Return (JArr (map Entry_json es)) ->
    fst (saveEntry e h (snd (saveEntry e h w))) = Return tt /\
    localStorage (snd (saveEntry e h (snd (saveEntry e h w))))
    = localStorage (snd (saveEntry e h w)).
Proof.
  intros h w e es H. destruct (saveEntry_run h w e es H) as [_ Hls].
  pose proof (loadEntries_after h w _ _ Hls) as H1.
  destruct (saveEntry_run h _ e _ H1) as [Hr2 Hls2]. split; [exact Hr2|].
  rewrite Hls2, upsert_idempotent, Hls. apply insert_insert_eq.
Qed.

Lemma saveEntry_idempotent_witness :
  localStorage (snd (saveEntry (entry_named "a" "A2") offline
                       (snd (saveEntry (entry_named "a" "A2") offline
                               (world_of_entries [entry_named "a" "A"])))))
  = localStorage (snd (saveEntry (entry_named "a" "A2") offline
                         (world_of_entries [entry_named "a" "A"]))).
Proof.
  apply (saveEntry_idempotent offline (world_of_entries [entry_named "a" "A"])
           (entry_named "a" "A2") [entry_named "a" "A"] (world_of_entries_loads _ _)).
Defined.

(** X4: [deleteEntry] returns and leaves exactly the entries with another
    id, in their order; no stored entry has the deleted id afterwards. *)
Theorem deleteEntry_removes :
  forall (h : Host) (w : World) (id : string) (es : list Entry),
    fst (loadEntries h w) = Return (JArr (map Entry_json es)) ->
    fst (deleteEntry id h w) = Return tt /\
    fst (loadEntries h (snd (deleteEntry id h w)))
    = Return (JArr (map Entry_json (List.filter (fun x => negb (String.eqb (entry_id x) id)) es))) /\
    index_of entry_id id (List.filter (fun x => negb (String.eqb (entry_id x) id)) es) = None.
Proof.
  intros h w id es H. destruct (deleteEntry_run h w id es H) as [Hr Hls].
  split; [exact Hr|]. split.
  - now apply (loadEntries_after h w).
  - apply without_index_of.
Qed.

Lemma deleteEntry_removes_witness :
  fst (loadEntries offline
         (snd (deleteEntry "a" offline
                 (world_of_entries [entry_named "a" "A"; entry_named "b" "B"; entry_named "a" "C"]))))
  = Return (JArr (map Entry_json [entry_named "b" "B"])).
Proof.
  apply (deleteEntry_removes offline
           (world_of_entries [entry_named "a" "A"; entry_named "b" "B"; entry_named "a" "C"])
           "a" [entry_named "a" "A"; entry_named "b" "B"; entry_named "a" "C"]
           (world_of_entries_loads _ _)).
Defined.

(** X5: deleting an entry that was just saved under a new id gives back
    the list that was stored before. *)
Theorem deleteEntry_undoes_saveEntry :
  forall (h : Host) (w : World) (e : Entry) (es : list Entry),
    fst (loadEntries h w) = Return (JArr (map Entry_json es)) ->
    index_of entry_id (entry_id e) es = None ->
    fst (loadEntries h (snd (deleteEntry (entry_id e) h (snd (saveEntry e h w)))))
    = Return (JArr (map Entry_json es)).
Proof.
  intros h w e es H Hnew. destruct (saveEntry_run h w e es H) as [_ Hls].
  pose proof (loadEntries_after h w _ _ Hls) as H1.
  destruct (deleteEntry_run h _ (entry_id e) _ H1) as [_ Hls2].
  rewrite (loadEntries_after h _ _ _ Hls2).
  rewrite upsert_without, without_all; [reflexivity|].
  now apply index_of_None.
Qed.

Lemma deleteEntry_undoes_saveEntry_witness :
  fst (loadEntries offline
         (snd (deleteEntry "b" offline
                 (snd (saveEntry (entry_named "b" "B") offline
                         (world_of_entries [entry_named "a" "A"]))))))
  = Return (JArr (map Entry_json [entry_named "a" "A"])).
Proof.
  apply (deleteEntry_undoes_saveEntry offline (world_of_entries [entry_named "a" "A"])
           (entry_named "b" "B") [entry_named "a" "A"] (world_of_entries_loads _ _)).
  reflexivity.
Defined.

(** X6: when nothing readable is stored under the entries key (no text,
    the empty text, or a text that does not parse), [saveEntry] stores the
    list of the one saved entry, over whatever text was there. *)
Theorem saveEntry_over_unreadable :
  forall (h : Host) (w : World) (e : Entry),
    (forall v, localStorage w !! STORAGE_KEY <> Some (Encoded v)) ->
    fst (saveEntry e h w) = Return tt /\
    localStorage (snd (saveEntry e h w)) !! STORAGE_KEY = Some (Encoded (JArr [Entry_json e])).
Proof.
  intros h w e Hno.
  assert (H : fst (loadEntries h w) = Return (JArr (map Entry_json []))).
  { destruct (loadEntries_listed h w) as [-> _]. unfold listed.
    destruct (localStorage w !! STORAGE_KEY) as [[|x|v]|] eqn:E; try reflexivity.
    now destruct (Hno v). }
  destruct (saveEntry_run h w e [] H) as [Hr Hls]. split; [exact Hr|].
  rewrite Hls. apply lookup_insert_eq.
Qed.

Lemma saveEntry_over_unreadable_witness :
  localStorage (snd (saveEntry (entry_named "a" "A") offline
                       (world_storing STORAGE_KEY (Garbled (SyntaxError "Unexpected token")))))
    !! STORAGE_KEY
  = Some (Encoded (JArr [Entry_json (entry_named "a" "A")])).
Proof.
  apply (saveEntry_over_unreadable offline
           (world_storing STORAGE_KEY (Garbled (SyntaxError "Unexpected token")))
           (entry_named "a" "A")).
  intros v. unfold world_storing. simpl. rewrite lookup_singleton_eq. discriminate.
Defined.

Lemma filter_array_null (p : option json -> bool) (l : list json) h w :
  In JNull l ->
  fst (filter_array (fun e => v <- get (Some e) "id" ;; ret (p v)) l h w)
  = Throw (cannot_read (Some JNull) "id").
Proof.
  revert w. induction l as [|x l IH]; intros w Hin; [destruct Hin|].
  cbn [filter_array]. destruct (nullish (Some x)) eqn:Hn.
  - destruct x; try discriminate Hn. reflexivity.
  - destruct Hin as [->|Hin]; [discriminate Hn|].
    assert (Hx : (v <- get (Some x) "id" ;; ret (p v)) h w = (Return (p (own_prop x "id")), w)).
    { unfold bind, get. rewrite Hn. reflexivity. }
    erewrite bind_Return; [|exact Hx].
    unfold bind. specialize (IH w Hin).
    destruct (filter_array _ l h w) as [[r|e] w']; simpl in IH; [discriminate|].
    now injection IH as ->.
Qed.

Lemma filter_array_world (p : option json -> bool) (l : list json) h w :
  snd (filter_array (fun e => v <- get (Some e) "id" ;; ret (p v)) l h w) = w.
Proof.
  revert w. induction l as [|x l IH]; intros w; [reflexivity|].
  cbn [filter_array]. destruct (nullish (Some x)) eqn:Hn.
  - unfold bind at 1. unfold bind at 1. unfold get. rewrite Hn.
    destruct x; try discriminate Hn. reflexivity.
  - assert (Hx : (v <- get (Some x) "id" ;; ret (p v)) h w = (Return (p (own_prop x "id")), w)).
    { unfold bind, get. rewrite Hn. reflexivity. }
    erewrite bind_Return; [|exact Hx].
    unfold bind. specialize (IH w).
    destruct (filter_array _ l h w) as [[r|e] w']; simpl in IH; now subst.
Qed.

(** X7: a [null] among the stored entries makes [deleteEntry] throw the
    [TypeError] of reading [id] of [null], whatever id is deleted, and
    nothing is stored. *)
Theorem deleteEntry_null_element :
  forall (h : Host) (w : World) (id : string) (l : list json),
    localStorage w !! STORAGE_KEY = Some (Encoded (JArr l)) ->
    In JNull l ->
    deleteEntry id h w = (Throw (cannot_read (Some JNull) "id"), w).
Proof.
  intros h w id l Hl Hin. unfold deleteEntry.
  assert (Hload : loadEntries h w = (Return (JArr l), w)).
  { unfold loadEntries, try_catch, bind, getItem. now rewrite Hl. }
  rewrite (bind_Return _ _ _ _ _ _ Hload). cbv beta iota.
  pose proof (filter_array_null (fun v => negb (strict_eq_string v id)) l h w Hin) as Hf.
  pose proof (filter_array_world (fun v => negb (strict_eq_string v id)) l h w) as Hw.
  unfold bind.
  destruct (filter_array _ l h w) as [[r|e] w']; simpl in Hf, Hw; [discriminate|].
  injection Hf as ->. now subst w'.
Qed.

Lemma deleteEntry_null_element_witness :
  deleteEntry "a" offline
    (world_storing STORAGE_KEY (Encoded (JArr [Entry_json (entry_named "a" "A"); JNull])))
  = (Throw (cannot_read (Some JNull) "id"),
     world_storing STORAGE_KEY (Encoded (JArr [Entry_json (entry_named "a" "A"); JNull]))).
Proof.
  apply (deleteEntry_null_element offline _ "a" [Entry_json (entry_named "a" "A"); JNull]).
  - unfold world_storing. simpl. apply lookup_singleton_eq.
  - right. left. reflexivity.
Defined.

(** X8: [deleteReport] returns and leaves exactly the reports with another
    id, in their order, so never more reports than before. *)
Theorem deleteReport_removes :
  forall (h : Host) (w : World) (id : string) (rs : list Report),
    fst (loadReports h w) = Return (JArr (map Report_json rs)) ->
    let rs' := List.filter (fun r => negb (String.eqb (report_id r) id)) rs in
    fst (deleteReport id h w) = Return tt /\
    fst (loadReports h (snd (deleteReport id h w))) = Return (JArr (map Report_json rs')) /\
    index_of report_id id rs' = None /\
    (length rs' <= length rs)%nat.
Proof.
  intros h w id rs H rs'. destruct (deleteReport_run h w id rs H) as [Hr Hls].
  split; [exact Hr|]. split; [|split].
  - now apply (loadReports_after h w).
  - apply without_index_of.
  - apply List.filter_length_le.
Qed.

Lemma deleteReport_removes_witness :
  fst (loadReports offline
         (snd (deleteReport "r1" offline
                 (world_storing REPORTS_KEY
                    (Encoded (JArr (map Report_json [report_of "r1" weekly; report_of "r2" monthly])))))))
  = Return (JArr (map Report_json [report_of "r2" monthly])).
Proof.
  apply (deleteReport_removes offline _ "r1" [report_of "r1" weekly; report_of "r2" monthly]).
  destruct (loadReports_listed offline
              (world_storing REPORTS_KEY
                 (Encoded (JArr (map Report_json [report_of "r1" weekly; report_of "r2" monthly])))))
    as [-> _].
  unfold listed, world_storing. simpl. now rewrite lookup_singleton_eq.
Defined.

Lemma loadEntries_other_key h w w' key v :
  key <> STORAGE_KEY ->
  localStorage w' = <[key := Encoded v]> (localStorage w) ->
  fst (loadEntries h w') = fst (loadEntries h w).
Proof.
  intros Hne H. destruct (loadEntries_listed h w') as [-> _].
  destruct (loadEntries_listed h w) as [-> _].
  now rewrite (listed_insert_other key STORAGE_KEY v w w' Hne H).
Qed.

Lemma loadReports_other_key h w w' key v :
  key <> REPORTS_KEY ->
  localStorage w' = <[key := Encoded v]> (localStorage w) ->
  fst (loadReports h w') = fst (loadReports h w).
Proof.
  intros Hne H. destruct (loadReports_listed h w') as [-> _].
  destruct (loadReports_listed h w) as [-> _].
  now rewrite (listed_insert_other key REPORTS_KEY v w w' Hne H).
Qed.

Lemma typed_storage_step h w op :
  typed_storage h w ->
  fst (run_op op h w) = Return tt /\ typed_storage h (snd (run_op op h w)).
Proof.
  intros (es & rs & He & Hr & Hlen). destruct op as [e|id|r|id]; cbn [run_op].
  - destruct (saveEntry_run h w e es He) as [Hret Hls]. split; [exact Hret|].
    exists (upsert entry_id e es), rs. split; [|split; [|exact Hlen]].
    + now apply (loadEntries_after h w).
    + rewrite <- Hr. eapply loadReports_other_key; [|exact Hls]. discriminate.
  - destruct (deleteEntry_run h w id es He) as [Hret Hls]. split; [exact Hret|].
    exists (without entry_id id es), rs. split; [|split; [|exact Hlen]].
    + now apply (loadEntries_after h w).
    + rewrite <- Hr. eapply loadReports_other_key; [|exact Hls]. discriminate.
  - destruct (saveReport_run h w r rs Hr) as [Hret Hls]. split; [exact Hret|].
    exists es, (take 50 (r :: rs)). split; [|split].
    + rewrite <- He. eapply loadEntries_other_key; [|exact Hls]. discriminate.
    + now apply (loadReports_after h w).
    + rewrite length_take. lia.
  - destruct (deleteReport_run h w id rs Hr) as [Hret Hls]. split; [exact Hret|].
    exists es, (without report_id id rs). split; [|split].
    + rewrite <- He. eapply loadEntries_other_key; [|exact Hls]. discriminate.
    + now apply (loadReports_after h w).
    + pose proof (List.filter_length_le (fun x => negb (String.eqb (report_id x) id)) rs).
      unfold without. lia.
Qed.

(** X9: the storage service keeps its own lists well formed. From a
    localStorage in which the entries and the reports are typed lists
    with at most 50 reports (an empty localStorage is one), every sequence
    of [saveEntry], [deleteEntry], [saveReport] and [deleteReport] runs to
    its end without throwing and leaves such a localStorage. *)
Theorem storage_ops_keep_typed :
  forall (h : Host) (w : World) (ops : list storage_op),
    typed_storage h w ->
    fst (run_ops ops h w) = Return tt /\ typed_storage h (snd (run_ops ops h w)).
Proof.
  intros h w ops. revert w. induction ops as [|op ops IH]; intros w Hw.
  - split; [reflexivity|exact Hw].
  - cbn [run_ops]. destruct (typed_storage_step h w op Hw) as [Hret Hw1].
    unfold bind. destruct (run_op op h w) as [[u|e] w1]; simpl in Hret, Hw1; [|discriminate].
    apply IH, Hw1.
Qed.

Lemma storage_ops_keep_typed_witness :
  fst (run_ops [OpSaveEntry (entry_named "a" "A"); OpSaveReport (report_of "r1" weekly);
                OpDeleteEntry "a"; OpDeleteReport "r1"]
         offline (world_with DEFAULT_SETTINGS)) = Return tt.
Proof.
  apply (storage_ops_keep_typed offline (world_with DEFAULT_SETTINGS)).
  exists [], []. split; [|split].
  - reflexivity.
  - reflexivity.
  - cbn. lia.
Defined.

(** ** Settings: saving and loading *)

(** X10: settings that were saved are loaded back as they were saved:
    for a complete settings object the merge with the defaults changes
    nothing. *)
Theorem settings_round_trip :
  forall (h : Host) (w : World) (settings : nat) (s : AppSettings),
    heap w !! settings = Some s ->
    fst (saveSettings settings h w) = Return tt /\
    fst (loadSettings h (snd (saveSettings settings h w))) = Return (AppSettings_json s).
Proof.
  intros h w settings s Hs. unfold saveSettings. rewrite Hs. unfold setItem. simpl.
  split; [reflexivity|].
  unfold loadSettings, try_catch, bind, getItem. simpl.
  rewrite lookup_insert_eq. reflexivity.
Qed.

Lemma settings_round_trip_witness :
  fst (loadSettings offline
         (snd (saveSettings 0%nat offline (world_with (settings_with gemini "key" true)))))
  = Return (AppSettings_json (settings_with gemini "key" true)).
Proof.
  apply (settings_round_trip offline (world_with (settings_with gemini "key" true)) 0%nat).
  apply world_with_heap.
Defined.

(** ** More on the service and its adapters *)

Lemma saveReport_not_a_list_witness :
  exists e,
    saveReport (report_of "r1" weekly) offline (world_storing REPORTS_KEY (Encoded (JObj [])))
    = (Throw (TypeError e), world_storing REPORTS_KEY (Encoded (JObj []))).
Proof.
  apply (saveReport_not_a_list offline (world_storing REPORTS_KEY (Encoded (JObj [])))
           (report_of "r1" weekly) (JObj [])).
  - unfold world_storing. simpl. apply lookup_singleton_eq.
  - discriminate.
Defined.

Lemma chat_http_error_text_witness :
  exists e,
    fst (DeepSeekAdapter.chat (DeepSeekAdapter.new "sk-test" "deepseek-chat") "system" "user" false
           (replying {| status := 429;
                        payload := inr (JObj [("error", JObj [("message", JStr "slow down")])]) |})
           (world_with DEFAULT_SETTINGS)) = Throw e /\
    includes (message e) (pretty 429%nat) = true /\
    includes (message e) "slow down" = true.
Proof.
  apply (chat_http_error_text _ _ _ _ _ _
           {| status := 429;
              payload := inr (JObj [("error", JObj [("message", JStr "slow down")])]) |}
           [("error", JObj [("message", JStr "slow down")])]
           [("message", JStr "slow down")] "slow down"); try reflexivity.
  discriminate.
Defined.

(** X15: for a status outside 2xx, when the body is not JSON or is a
    value other than [null] without an [error] property, [chat] throws
    [DeepSeek API Error: <status> - Unknown error]. *)
Theorem chat_unknown_error :
  forall this systemPrompt userPrompt jsonMode (h : Host) (w : World) (r : Response),
    host_fetch h (DeepSeekAdapter.chat_request this systemPrompt userPrompt jsonMode) = inr r ->
    ok r = false ->
    (exists e, payload r = inl e) \/
    (exists body, payload r = inr body /\ body <> JNull /\ own_prop body "error" = None) ->
    fst (DeepSeekAdapter.chat this systemPrompt userPrompt jsonMode h w)
    = Throw (Error ("DeepSeek API Error: " +:+ pretty (status r) +:+ " - Unknown error")).
Proof.
  intros this systemPrompt userPrompt jsonMode h w r H Hok Hbody.
  assert (Hnn : payload r <> inr JNull).
  { destruct Hbody as [[e He]|(body & Hb & Hn & _)]; rewrite ?He, ?Hb; congruence. }
  rewrite (chat_http_error _ _ _ _ _ w _ H Hok Hnn).
  destruct Hbody as [[e ->]|(body & -> & _ & ->)]; reflexivity.
Qed.

Lemma chat_unknown_error_witness :
  fst (DeepSeekAdapter.chat (DeepSeekAdapter.new "sk-test" "deepseek-chat") "system" "user" false
         (replying {| status := 502; payload := inl (SyntaxError "Unexpected token <") |})
         (world_with DEFAULT_SETTINGS))
  = Throw (Error ("DeepSeek API Error: " +:+ pretty 502%nat +:+ " - Unknown error")).
Proof.
  apply (chat_unknown_error _ _ _ _ _ _
           {| status := 502; payload := inl (SyntaxError "Unexpected token <") |});
    try reflexivity.
  left. eexists. reflexivity.
Defined.

(** X13: when a 2xx response carries a first completion with the
    non-empty content [s], [chat] returns [s], and the DeepSeek
    [analyzeEntry] returns what [JSON.parse] makes of [s], throwing the
    parse error unchanged when there is one. *)
Theorem deepseek_returns_content :
  forall this (h : Host) (w : World) (r : Response) fields c cs m (s : string),
    ok r = true ->
    payload r = inr (JObj fields) ->
    assoc "choices" fields = Some (JArr (c :: cs)) ->
    own_prop c "message" = Some m ->
    own_prop m "content" = Some (JStr s) ->
    s <> "" ->
    (forall systemPrompt userPrompt jsonMode,
        host_fetch h (DeepSeekAdapter.chat_request this systemPrompt userPrompt jsonMode) = inr r ->
        fst (DeepSeekAdapter.chat this systemPrompt userPrompt jsonMode h w) = Return (JStr s)) /\
    (forall text,
        host_fetch h (DeepSeekAdapter.chat_request this SYSTEM_INSTRUCTION_ANALYSIS
                        (ANALYSIS_PROMPT +:+ text +:+ ANALYSIS_FORMAT) true) = inr r ->
        fst (DeepSeekAdapter.analyzeEntry this text h w) = settled (host_JSON_parse h (JStr s))).
Proof.
  intros this h w r fields c cs m s Hok Hp Hc Hm Hs Hne.
  assert (Hchat : forall systemPrompt userPrompt jsonMode,
             host_fetch h (DeepSeekAdapter.chat_request this systemPrompt userPrompt jsonMode) = inr r ->
             fst (DeepSeekAdapter.chat this systemPrompt userPrompt jsonMode h w) = Return (JStr s)).
  { intros systemPrompt userPrompt jsonMode H. run_with H. rewrite Hok, Hp. simpl.
    rewrite Hc. simpl.
    destruct c; simpl in *; try discriminate. rewrite Hm.
    destruct m; simpl in *; try discriminate. rewrite Hs.
    destruct s; [congruence|reflexivity]. }
  split; [exact Hchat|].
  intros text H. specialize (Hchat _ _ _ H).
  unfold DeepSeekAdapter.analyzeEntry. cbv zeta. unfold bind.
  destruct (DeepSeekAdapter.chat _ _ _ _ h w) as [[v|e] w1]; simpl in Hchat; [|discriminate].
  injection Hchat as ->. unfold JSON_parse. now destruct (host_JSON_parse h (JStr s)).
Qed.

Lemma deepseek_returns_content_witness :
  fst (DeepSeekAdapter.analyzeEntry (DeepSeekAdapter.new "sk-test" "deepseek-chat")
         "I had a great day"
         (answering (completion_with "{ }") (JObj [("sentimentScore", JNum 80)]))
         (world_with DEFAULT_SETTINGS))
  = Return (JObj [("sentimentScore", JNum 80)]).
Proof.
  apply (proj2 (deepseek_returns_content (DeepSeekAdapter.new "sk-test" "deepseek-chat")
                  (answering (completion_with "{ }") (JObj [("sentimentScore", JNum 80)]))
                  (world_with DEFAULT_SETTINGS) (completion_with "{ }")
                  [("choices", JArr [JObj [("message", JObj [("role", JStr "assistant");
                                                             ("content", JStr "{ }")])]])]
                  (JObj [("message", JObj [("role", JStr "assistant"); ("content", JStr "{ }")])])
                  []
                  (JObj [("role", JStr "assistant"); ("content", JStr "{ }")])
                  "{ }" eq_refl eq_refl eq_refl eq_refl eq_refl ltac:(discriminate))
           "I had a great day").
  reflexivity.
Defined.

Lemma deepseek_analyzeEntry_console this text h w :
  console (snd (DeepSeekAdapter.analyzeEntry this text h w)) = console w.
Proof.
  unfold DeepSeekAdapter.analyzeEntry. cbv zeta. unfold bind.
  pose proof (chat_world this SYSTEM_INSTRUCTION_ANALYSIS
                (ANALYSIS_PROMPT +:+ text +:+ ANALYSIS_FORMAT) true h w) as Hw.
  destruct (DeepSeekAdapter.chat _ _ _ _ h w) as [[v|e] w']; simpl in Hw; subst w';
    [|reflexivity].
  unfold JSON_parse. now destruct (host_JSON_parse h v).
Qed.

Lemma gemini_analyzeEntry_console this text h w :
  console (snd (GeminiAdapter.analyzeEntry this text h w)) = console w.
Proof.
  unfold GeminiAdapter.analyzeEntry, bind.
  pose proof (generateContent_world (GeminiAdapter.ai this)
                (GeminiAdapter.analyze_request this text) h w) as Hw.
  destruct (generateContent _ _ h w) as [[r|e] w']; simpl in Hw; subst w'; [|reflexivity].
  destruct (response_text r) as [t|]; [|reflexivity].
  destruct (String.eqb t ""); [reflexivity|].
  unfold JSON_parse. now destruct (host_JSON_parse h (JStr t)).
Qed.

Lemma deepseek_generateReport_console this entries reportType h w :
  console (snd (DeepSeekAdapter.generateReport this entries reportType h w)) = console w.
Proof.
  unfold DeepSeekAdapter.generateReport.
  destruct (length entries =? 0)%nat; [reflexivity|]. cbv zeta. now rewrite chat_world.
Qed.

Lemma gemini_generateReport_console this entries reportType h w :
  console (snd (GeminiAdapter.generateReport this entries reportType h w)) = console w.
Proof.
  unfold GeminiAdapter.generateReport.
  destruct (length entries =? 0)%nat; [reflexivity|]. unfold bind.
  pose proof (generateContent_world (GeminiAdapter.ai this)
                (GeminiAdapter.report_request this entries reportType) h w) as Hw.
  destruct (generateContent _ _ h w) as [[r|e] w']; simpl in Hw; subst w'; reflexivity.
Qed.

Lemma rethrow_run {A} (m : M A) (label : string) h w :
  console (snd (m h w)) = console w ->
  fst (try_catch m (fun e => console_error label e ;;; throw e) h w) = fst (m h w) /\
  calls (snd (try_catch m (fun e => console_error label e ;;; throw e) h w))
  = calls (snd (m h w)) /\
  console (snd (try_catch m (fun e => console_error label e ;;; throw e) h w))
  = console w ++ logged label (fst (m h w)).
Proof.
  intros Hc. unfold try_catch. destruct (m h w) as [[a|e] w']; simpl in *.
  - now rewrite app_nil_r.
  - now rewrite Hc.
Qed.

(** X16: once the key and enabled checks pass, [analyzeEntry] and
    [generateReport] of the service return what the adapter of the active
    provider returns and throw what it throws, unchanged; they make the
    adapter's calls and no other; a thrown error is logged once, under a
    label with the provider's name, and nothing is logged on success. *)
Theorem service_rethrows_unchanged :
  forall (h : Host) (w : World) (settings : nat) (s : AppSettings)
         (text : string) (entries : list Entry) (reportType : ReportType),
    heap w !! settings = Some s ->
    apiKey (providers_get (providers s) (activeProvider s)) <> "" ->
    enabled (providers_get (providers s) (activeProvider s)) = true ->
    (fst (analyzeEntry text settings h w) = fst (adapter_analyzeEntry s text h w) /\
     calls (snd (analyzeEntry text settings h w)) = calls (snd (adapter_analyzeEntry s text h w)) /\
     console (snd (analyzeEntry text settings h w))
     = console w ++ logged ("AI Analysis Failed (" +:+ provider_name (activeProvider s) +:+ "):")
                           (fst (adapter_analyzeEntry s text h w))) /\
    (fst (generateReport entries reportType settings h w)
     = fst (adapter_generateReport s entries reportType h w) /\
     calls (snd (generateReport entries reportType settings h w))
     = calls (snd (adapter_generateReport s entries reportType h w)) /\
     console (snd (generateReport entries reportType settings h w))
     = console w ++ logged ("Report Generation Failed (" +:+ provider_name (activeProvider s) +:+ "):")
                           (fst (adapter_generateReport s entries reportType h w))).
Proof.
  intros h w settings s text entries reportType Hs Hk He.
  apply String.eqb_neq in Hk. split.
  - unfold analyzeEntry, adapter_analyzeEntry.
    rewrite !(bind_Return _ _ _ _ _ _ (deref_Some _ _ _ _ Hs)).
    cbv beta zeta. rewrite Hk, He. change (negb true) with false. cbv iota.
    apply rethrow_run. destruct (activeProvider s).
    + apply gemini_analyzeEntry_console.
    + apply deepseek_analyzeEntry_console.
  - unfold generateReport, adapter_generateReport.
    rewrite !(bind_Return _ _ _ _ _ _ (deref_Some _ _ _ _ Hs)).
    cbv beta zeta. rewrite Hk, He. change (negb true) with false. cbv iota.
    apply rethrow_run. destruct (activeProvider s).
    + apply gemini_generateReport_console.
    + apply deepseek_generateReport_console.
Qed.

Lemma service_rethrows_unchanged_witness :
  fst (analyzeEntry "I had a great day" 0%nat (rejecting (Error "quota exceeded"))
         (world_with (settings_with gemini "key" true)))
  = Throw (Error "quota exceeded") /\
  console (snd (analyzeEntry "I had a great day" 0%nat (rejecting (Error "quota exceeded"))
                  (world_with (settings_with gemini "key" true))))
  = [("AI Analysis Failed (gemini):", Error "quota exceeded")].
Proof.
  destruct (service_rethrows_unchanged (rejecting (Error "quota exceeded"))
              (world_with (settings_with gemini "key" true)) 0%nat
              (settings_with gemini "key" true) "I had a great day" [] weekly
              (world_with_heap _) ltac:(discriminate) eq_refl)
    as [(Hf & _ & Hc) _].
  split; [exact Hf|exact Hc].
Defined.

(** X17: when the vendor call resolves, the Gemini [analyzeEntry] throws
    [No response from Gemini AI] for an absent or empty text without
    parsing anything, and otherwise returns what [JSON.parse] makes of the
    text, throwing the parse error unchanged when there is one. *)
Theorem gemini_analyzeEntry_text :
  forall this (text : string) (h : Host) (w : World) (r : GenerateContentResponse),
    host_generateContent h (GeminiAdapter.ai this) (GeminiAdapter.analyze_request this text)
    = inr r ->
    (response_text r = None \/ response_text r = Some "" ->
     fst (GeminiAdapter.analyzeEntry this text h w) = Throw (Error "No response from Gemini AI")) /\
    (forall t, response_text r = Some t -> t <> "" ->
     fst (GeminiAdapter.analyzeEntry this text h w) = settled (host_JSON_parse h (JStr t))).
Proof.
  intros this text h w r H. split.
  - intros Ht. run_with H. now destruct Ht as [-> | ->].
  - intros t Ht Hne. run_with H. rewrite Ht. apply String.eqb_neq in Hne. rewrite Hne.
    unfold JSON_parse, lift. now destruct (host_JSON_parse h (JStr t)).
Qed.

Lemma gemini_analyzeEntry_text_witness :
  fst (GeminiAdapter.analyzeEntry (GeminiAdapter.new "key" "gemini-2.0-flash") "hi"
         (generating (Some "")) (world_with DEFAULT_SETTINGS))
  = Throw (Error "No response from Gemini AI").
Proof.
  apply (proj1 (gemini_analyzeEntry_text (GeminiAdapter.new "key" "gemini-2.0-flash") "hi"
                  (generating (Some "")) (world_with DEFAULT_SETTINGS)
                  {| response_text := Some "" |} eq_refl)).
  right. reflexivity.
Defined.

(** X18: whatever the host answers, [validateApiKey] makes exactly one
    call, the probe of the chosen provider with the key under test and
    the fixed model, logs nothing and changes nothing else. *)
Theorem validateApiKey_one_call :
  forall (h : Host) (w : World) (provider : AIProviderType) (key : string),
    snd (validateApiKey provider key h w)
    = with_call w (match provider with
                   | deepseek => FetchCall (deepseek_probe_request key)
                   | gemini => GenerateContentCall {| genai_apiKey := key |}
                                 gemini_probe_parameters
                   end).
Proof.
  intros h w provider key. unfold validateApiKey, try_catch, bind. destruct provider; cbv zeta.
  - pose proof (generateContent_world {| genai_apiKey := key |} gemini_probe_parameters h w) as Hw.
    fold gemini_probe_parameters.
    destruct (generateContent _ gemini_probe_parameters h w) as [[r|e] w']; simpl in Hw; now subst.
  - pose proof (chat_world (DeepSeekAdapter.new key "deepseek-chat") "You are a test assistant."
                  ("Say " +:+ dq +:+ "OK" +:+ dq +:+ " if you can hear me.") false h w) as Hw.
    destruct (DeepSeekAdapter.chat _ _ _ _ h w) as [[r|e] w']; simpl in Hw; now subst.
Qed.

(** ** The first service *)

(** X19: [GeminiService.generateWeeklyReport] never throws. With no
    entries it returns [No entries to analyze.] and makes no call; when
    the vendor call rejects it logs the error once and returns the fixed
    connection message; when the call resolves it returns the text, or
    [Could not generate report.] for an absent or empty text. *)
Theorem first_service_report_never_throws :
  forall (h : Host) (w : World) (API_KEY : string) (entries : list Entry),
    exists s : string,
      fst (GeminiService.generateWeeklyReport API_KEY entries h w) = Return s /\
      (entries = [] ->
       s = "No entries to analyze." /\
       snd (GeminiService.generateWeeklyReport API_KEY entries h w) = w) /\
      (entries <> [] -> forall e,
       (forall ai p, host_generateContent h ai p = inl e) ->
       s = "Error generating report. Please check your connection." /\
       console (snd (GeminiService.generateWeeklyReport API_KEY entries h w))
       = console w ++ [("Report Generation Failed:", e)]) /\
      (entries <> [] -> forall t,
       (forall ai p, host_generateContent h ai p = inr {| response_text := t |}) ->
       s = match t with
           | Some x => if String.eqb x "" then "Could not generate report." else x
           | None => "Could not generate report."
           end).
Proof.
  intros h w API_KEY entries. unfold GeminiService.generateWeeklyReport.
  destruct entries as [|e0 es].
  - exists "No entries to analyze.". repeat split; congruence.
  - change (length (e0 :: es) =? 0)%nat with false. cbv iota.
    unfold try_catch, bind, generateContent, record_call, lift.
    destruct (host_generateContent h _ _) as [e|r] eqn:E; simpl.
    + eexists. split; [reflexivity|]. split; [discriminate|]. split.
      * intros _ e' He'. rewrite He' in E. injection E as ->. split; reflexivity.
      * intros _ t Ht. rewrite Ht in E. discriminate E.
    + eexists. split; [reflexivity|]. split; [discriminate|]. split.
      * intros _ e' He'. rewrite He' in E. discriminate E.
      * intros _ t Ht. rewrite Ht in E. injection E as <-. reflexivity.
Qed.

Lemma first_service_report_never_throws_witness :
  exists s,
    fst (GeminiService.generateWeeklyReport "key" [entry_named "a" "A"]
           (rejecting (Error "offline")) (world_with DEFAULT_SETTINGS)) = Return s /\
    s = "Error generating report. Please check your connection.".
Proof.
  destruct (first_service_report_never_throws (rejecting (Error "offline"))
              (world_with DEFAULT_SETTINGS) "key" [entry_named "a" "A"])
    as (s & Hs & _ & Hrej & _).
  exists s. split; [exact Hs|].
  apply (Hrej ltac:(discriminate) (Error "offline")). reflexivity.
Defined.

(** X20: [GeminiService.analyzeEntry] with an empty [API_KEY] throws the
    missing-key error without making a call; with a key, an error of the
    vendor call is logged once and thrown unchanged. *)
Theorem first_service_analyzeEntry_errors :
  forall (h : Host) (w : World) (API_KEY text : string),
    (API_KEY = "" ->
     GeminiService.analyzeEntry API_KEY text h w
     = (Throw (Error "API Key is missing. Please configure your environment."), w)) /\
    (API_KEY <> "" -> forall e,
     (forall ai p, host_generateContent h ai p = inl e) ->
     fst (GeminiService.analyzeEntry API_KEY text h w) = Throw e /\
     console (snd (GeminiService.analyzeEntry API_KEY text h w))
     = console w ++ [("Gemini Analysis Failed:", e)] /\
     length (calls (snd (GeminiService.analyzeEntry API_KEY text h w))) = S (length (calls w))).
Proof.
  intros h w API_KEY text. unfold GeminiService.analyzeEntry. split.
  - intros ->. reflexivity.
  - intros Hne e He. apply String.eqb_neq in Hne. rewrite Hne.
    unfold try_catch, bind, generateContent, record_call, lift. rewrite He. simpl.
    repeat split. rewrite length_app. simpl. lia.
Qed.

Lemma first_service_analyzeEntry_errors_witness :
  GeminiService.analyzeEntry "" "hi" offline (world_with DEFAULT_SETTINGS)
  = (Throw (Error "API Key is missing. Please configure your environment."),
     world_with DEFAULT_SETTINGS) /\
  fst (GeminiService.analyzeEntry "key" "hi" (rejecting (Error "offline"))
         (world_with DEFAULT_SETTINGS)) = Throw (Error "offline").
Proof.
  split.
  - apply (proj1 (first_service_analyzeEntry_errors offline (world_with DEFAULT_SETTINGS) "" "hi")).
    reflexivity.
  - apply (proj2 (first_service_analyzeEntry_errors (rejecting (Error "offline"))
                    (world_with DEFAULT_SETTINGS) "key" "hi")
             ltac:(discriminate) (Error "offline")).
    reflexivity.
Defined.

(** ** The settings panel *)

Lemma panel_step_enabled s a p :
  enabled (providers_get (providers s) p) = true ->
  enabled (providers_get (providers (panel_step s a)) p) = true.
Proof.
  intros H. destruct a as [q|q k|q m|l|]; cbn; try exact H;
    destruct q, p; cbn; auto.
Qed.

Lemma panel_step_active s a :
  enabled (providers_get (providers s) (activeProvider s)) = true ->
  enabled (providers_get (providers (panel_step s a)) (activeProvider (panel_step s a))) = true.
Proof.
  intros H. destruct a as [q|q k|q m|l|]; cbn; try exact H;
    destruct q; destruct (activeProvider s); cbn in *; auto.
Qed.

(** X21: no handler of the settings panel disables a provider. Through
    any sequence of panel actions a provider that is enabled stays
    enabled, and when the active provider is enabled (as in the default
    settings) the active provider of the resulting settings is enabled. *)
Theorem panel_never_disables :
  forall (s : AppSettings) (actions : list panel_action),
    (forall p, enabled (providers_get (providers s) p) = true ->
               enabled (providers_get (providers (panel_run s actions)) p) = true) /\
    (enabled (providers_get (providers s) (activeProvider s)) = true ->
     enabled (providers_get (providers (panel_run s actions))
                (activeProvider (panel_run s actions))) = true).
Proof.
  intros s actions. revert s. induction actions as [|a actions IH]; intros s.
  - split; auto.
  - destruct (IH (panel_step s a)) as [IH1 IH2]. split.
    + intros p H. apply IH1. now apply panel_step_enabled.
    + intros H. apply IH2. now apply panel_step_active.
Qed.

Lemma panel_never_disables_witness :
  enabled (providers_get
             (providers (panel_run DEFAULT_SETTINGS
                           [PApiKey gemini "key"; PToggle gemini; PModel deepseek "deepseek-reasoner"]))
             (activeProvider (panel_run DEFAULT_SETTINGS
                                [PApiKey gemini "key"; PToggle gemini;
                                 PModel deepseek "deepseek-reasoner"]))) = true.
Proof.
  apply (proj2 (panel_never_disables DEFAULT_SETTINGS
                  [PApiKey gemini "key"; PToggle gemini; PModel deepseek "deepseek-reasoner"])).
  reflexivity.
Defined.

Lemma checked_analyzeEntry_calls h w text settings s :
  heap w !! settings = Some s ->
  apiKey (providers_get (providers s) (activeProvider s)) <> "" ->
  enabled (providers_get (providers s) (activeProvider s)) = true ->
  calls (snd (analyzeEntry text settings h w)) = calls w ++ [analysis_call s text].
Proof.
  intros Hs Hk He. apply String.eqb_neq in Hk. unfold analyzeEntry, analysis_call.
  rewrite (bind_Return _ _ _ _ _ _ (deref_Some _ _ _ _ Hs)).
  cbv beta zeta. rewrite Hk, He. change (negb true) with false. cbv iota.
  rewrite rethrow_calls. destruct (activeProvider s).
  - apply gemini_analyzeEntry_calls.
  - apply deepseek_analyzeEntry_calls.
Qed.

(** X22: entering a non-empty key for a provider and then selecting that
    provider gives settings with which [analyzeEntry] passes both checks:
    it makes the one request of that provider's adapter, with the entered
    key and the model the provider had. *)
Theorem key_then_toggle_reaches_network :
  forall (h : Host) (w : World) (settings : nat) (s : AppSettings)
         (p : AIProviderType) (key text : string),
    key <> "" ->
    heap w !! settings
    = Some (SettingsPanel.handleProviderToggle (SettingsPanel.handleApiKeyChange s p key) p) ->
    calls (snd (analyzeEntry text settings h w))
    = calls w ++
      [match p with
       | deepseek =>
           FetchCall (DeepSeekAdapter.chat_request
                        (DeepSeekAdapter.new key (model (providers_get (providers s) p)))
                        SYSTEM_INSTRUCTION_ANALYSIS
                        (ANALYSIS_PROMPT +:+ text +:+ ANALYSIS_FORMAT) true)
       | gemini =>
           GenerateContentCall {| genai_apiKey := key |}
             (GeminiAdapter.analyze_request
                (GeminiAdapter.new key (model (providers_get (providers s) p))) text)
       end].
Proof.
  intros h w settings s p key text Hk Hs.
  rewrite (checked_analyzeEntry_calls h w text settings _ Hs).
  - destruct p; reflexivity.
  - destruct p; exact Hk.
  - destruct p; reflexivity.
Qed.

Lemma key_then_toggle_reaches_network_witness :
  calls (snd (analyzeEntry "hi" 0%nat offline
                (world_with (SettingsPanel.handleProviderToggle
                               (SettingsPanel.handleApiKeyChange DEFAULT_SETTINGS gemini "key")
                               gemini))))
  = [GenerateContentCall {| genai_apiKey := "key" |}
       (GeminiAdapter.analyze_request (GeminiAdapter.new "key" "gemini-2.0-flash") "hi")].
Proof.
  apply (key_then_toggle_reaches_network offline
           (world_with (SettingsPanel.handleProviderToggle
                          (SettingsPanel.handleApiKeyChange DEFAULT_SETTINGS gemini "key") gemini))
           0%nat DEFAULT_SETTINGS gemini "key" "hi").
  - discriminate.
  - apply world_with_heap.
Defined.

(** ** The mood distribution *)

Lemma moodCounts_fold (k : string) (entries : list Entry) (acc : list (string * nat)) :
  default 0%nat
    (assoc k (fold_left
                (fun acc curr =>
                   let s := match sentiment curr with
                            | Some x => Sentiment_name x
                            | None => "unclassified"
                            end in
                   obj_set s (default 0%nat (assoc s acc) + 1)%nat acc)
                entries acc))
  = (default 0%nat (assoc k acc)
     + length (List.filter (fun e => String.eqb (mood_label e) k) entries))%nat.
Proof.
  revert acc. induction entries as [|e entries IH]; intros acc; cbn [fold_left List.filter].
  - cbn [length]. now rewrite Nat.add_0_r.
  - rewrite IH. cbv zeta. fold (mood_label e).
    destruct (String.eqb_spec (mood_label e) k) as [->|Hne].
    + rewrite assoc_obj_set_same. cbn [length]. 
      change (default 0%nat (Some (default 0%nat (assoc k acc) + 1)%nat))
        with (default 0%nat (assoc k acc) + 1)%nat.
      generalize (default 0%nat (assoc k acc)). intros n. lia.
    + rewrite assoc_obj_set_other by exact Hne.
      generalize (default 0%nat (assoc k acc)). intros n. lia.
Qed.

Lemma mood_label_count (x : option Sentiment) (entries : list Entry) :
  length (List.filter
            (fun e => String.eqb (mood_label e)
                        (match x with Some y => Sentiment_name y | None => "unclassified" end))
            entries)
  = sentiment_count x entries.
Proof.
  unfold sentiment_count. f_equal. apply List.filter_ext. intros e.
  unfold mood_label, has_sentiment. destruct x as [[]|]; destruct (sentiment e) as [[]|]; reflexivity.
Qed.

Lemma sentiment_count_cons x e entries :
  sentiment_count x (e :: entries)
  = ((if has_sentiment x e then 1 else 0) + sentiment_count x entries)%nat.
Proof.
  unfold sentiment_count. cbn [List.filter]. now destruct (has_sentiment x e).
Qed.

Lemma sentiment_partition (entries : list Entry) :
  (sentiment_count (Some positive) entries + sentiment_count (Some neutral) entries
   + sentiment_count (Some negative) entries + sentiment_count None entries)%nat
  = length entries.
Proof.
  induction entries as [|e entries IH]; [reflexivity|].
  rewrite !sentiment_count_cons. cbn [length]. unfold has_sentiment.
  destruct (sentiment e) as [[]|]; lia.
Qed.

(** X23: the three values of the mood distribution are the numbers of
    entries whose sentiment is positive, neutral and negative, in that
    order; with the entries that have no sentiment they add up to the
    number of entries. *)
Theorem moodData_counts :
  forall entries : list Entry,
    map AnalyticsDashboard.mood_value (AnalyticsDashboard.moodData entries)
    = [sentiment_count (Some positive) entries;
       sentiment_count (Some neutral) entries;
       sentiment_count (Some negative) entries] /\
    (list_sum (map AnalyticsDashboard.mood_value (AnalyticsDashboard.moodData entries))
     + sentiment_count None entries)%nat = length entries.
Proof.
  intros entries.
  assert (H : map AnalyticsDashboard.mood_value (AnalyticsDashboard.moodData entries)
              = [sentiment_count (Some positive) entries;
                 sentiment_count (Some neutral) entries;
                 sentiment_count (Some negative) entries]).
  { unfold AnalyticsDashboard.moodData, AnalyticsDashboard.moodCounts. cbv zeta. cbn [map AnalyticsDashboard.mood_value].
    rewrite !moodCounts_fold. cbn [assoc default Nat.add].
    now rewrite <- (mood_label_count (Some positive)), <- (mood_label_count (Some neutral)),
      <- (mood_label_count (Some negative)). }
  split; [exact H|]. rewrite H. cbn [list_sum foldr]. 
  pose proof (sentiment_partition entries). lia.
Qed.

(** ** The tags after an analysis *)

Lemma existsb_eqb_In (x : string) (l : list string) :
  existsb (String.eqb x) l = true <-> In x l.
Proof.
  rewrite existsb_exists. split.
  - intros (y & Hy & E). apply String.eqb_eq in E. now subst.
  - intros H. exists x. split; [exact H|apply String.eqb_refl].
Qed.

Lemma Set_values_fold (l seen : list string) :
  NoDup seen ->
  let r := fold_left (fun seen x => if existsb (String.eqb x) seen then seen else seen ++ [x])
             l seen in
  NoDup r /\ (forall x, In x r <-> In x seen \/ In x l) /\ exists rest, r = seen ++ rest.
Proof.
  revert seen. induction l as [|a l IH]; intros seen Hnd; cbn [fold_left].
  - split; [exact Hnd|]. split; [intros x; cbn; tauto|]. exists []. now rewrite app_nil_r.
  - destruct (existsb (String.eqb a) seen) eqn:E.
    + destruct (IH seen Hnd) as (H1 & H2 & H3). split; [exact H1|]. split; [|exact H3].
      intros x. rewrite H2. cbn. apply existsb_eqb_In in E.
      split; [tauto|]. intros [H|[<-|H]]; auto.
    + assert (Hnot : ~ In a seen).
      { intros Hin. apply existsb_eqb_In in Hin. congruence. }
      assert (Hnd' : NoDup (seen ++ [a])).
      { apply NoDup_app. split; [exact Hnd|]. split; [|apply NoDup_singleton].
        intros y Hy Hs. apply list_elem_of_singleton in Hs. subst y.
        apply Hnot. now apply list_elem_of_In. }
      destruct (IH (seen ++ [a]) Hnd') as (H1 & H2 & rest & H3).
      split; [exact H1|]. split.
      * intros x. rewrite H2, in_app_iff. cbn. tauto.
      * exists (a :: rest). rewrite H3. now rewrite <- app_assoc.
Qed.

Lemma Set_values_NoDup_id (l : list string) : NoDup l -> Editor.Set_values l = l.
Proof.
  unfold Editor.Set_values. intros H.
  assert (G : forall seen, NoDup (seen ++ l) ->
              fold_left (fun seen x => if existsb (String.eqb x) seen then seen else seen ++ [x])
                l seen = seen ++ l).
  { clear H. induction l as [|a l IH]; intros seen Hnd; cbn [fold_left].
    - now rewrite app_nil_r.
    - assert (E : existsb (String.eqb a) seen = false).
      { destruct (existsb (String.eqb a) seen) eqn:E; [|reflexivity].
        apply existsb_eqb_In in E. apply NoDup_app in Hnd as (_ & Hd & _).
        exfalso. apply (Hd a); [now apply list_elem_of_In|]. left. }
      rewrite E. rewrite IH; rewrite <- app_assoc; [reflexivity|exact Hnd]. }
  apply (G []). exact H.
Qed.

(** X24: the tags stored after an analysis have no duplicate; a tag is
    among them exactly when it was a tag of the entry or a tag of the
    result; and when the entry's tags were distinct they come first, in
    their order. *)
Theorem merged_tags_distinct :
  forall entry_tags result_tags : list string,
    NoDup (Editor.merged_tags entry_tags result_tags) /\
    (forall t, In t (Editor.merged_tags entry_tags result_tags)
               <-> In t entry_tags \/ In t result_tags) /\
    (NoDup entry_tags ->
     exists added, Editor.merged_tags entry_tags result_tags = entry_tags ++ added).
Proof.
  intros entry_tags result_tags. unfold Editor.merged_tags.
  destruct (Set_values_fold (entry_tags ++ result_tags) [] ltac:(constructor)) as (H1 & H2 & _).
  split; [exact H1|]. split.
  - intros t. unfold Editor.Set_values. rewrite H2, in_app_iff. cbn. tauto.
  - intros Hnd. unfold Editor.Set_values. rewrite fold_left_app.
    pose proof (Set_values_NoDup_id entry_tags Hnd) as Hid. unfold Editor.Set_values in Hid.
    rewrite Hid. destruct (Set_values_fold result_tags entry_tags Hnd) as (_ & _ & rest & Hr).
    exists rest. exact Hr.
Qed.

Lemma merged_tags_distinct_witness :
  exists added, Editor.merged_tags ["work"; "walk"] ["walk"; "sun"; "sun"]
                = ["work"; "walk"] ++ added.
Proof.
  apply (proj2 (proj2 (merged_tags_distinct ["work"; "walk"] ["walk"; "sun"; "sun"]))).
  apply (bool_decide_unpack _). vm_compute. exact I.
Defined.

(** ** The report history *)

(** X25: when the stored reports are the first 50 of the reports held in
    memory, they still are after [handleReportGenerated]: the new report
    is first in memory and in storage, and storage keeps the newest 50. *)
Theorem history_matches_storage :
  forall (h : Host) (w : World) (reports : list Report) (report : Report),
    fst (loadReports h w) = Return (JArr (map Report_json (take 50 reports))) ->
    let reports' := fst (App.handleReportGenerated reports report) in
    let save := snd (App.handleReportGenerated reports report) in
    reports' = report :: reports /\
    fst (save h w) = Return tt /\
    fst (loadReports h (snd (save h w))) = Return (JArr (map Report_json (take 50 reports'))).
Proof.
  intros h w reports report H reports' save. subst reports' save. cbn [App.handleReportGenerated fst snd].
  destruct (saveReport_run h w report _ H) as [Hr Hls].
  split; [reflexivity|]. split; [exact Hr|].
  rewrite (loadReports_after h w _ _ Hls). do 3 f_equal.
  change (take 50 (report :: take 50 reports)) with (report :: take 49 (take 50 reports)).
  change (take 50 (report :: reports)) with (report :: take 49 reports).
  f_equal. rewrite take_take. f_equal.
Qed.

Lemma history_matches_storage_witness :
  fst (loadReports offline
         (snd (snd (App.handleReportGenerated [] (report_of "r1" weekly)) offline
                 (world_with DEFAULT_SETTINGS))))
  = Return (JArr (map Report_json (take 50 [report_of "r1" weekly]))).
Proof.
  apply (history_matches_storage offline (world_with DEFAULT_SETTINGS) [] (report_of "r1" weekly)).
  reflexivity.
Defined.

(** ** Importing a backup file *)

(** X26: [handleFileUpload] never throws. A file whose JSON is a list,
    or an object with a list under [entries], is handed to [onImport] as
    that list, and the success message counts its elements when
    [onImport] returns, while an error thrown by [onImport] gives the
    failure message. Any other JSON value except [null] is ignored
    without a message; [null] and a text that does not parse give the
    failure message. *)
Theorem handleFileUpload_outcomes :
  forall (onImport : list json -> M unit) (result : stored) (h : Host) (w : World),
    (exists msg, fst (Sidebar.handleFileUpload onImport result h w) = Return msg) /\
    (forall parsed l,
        result = Encoded parsed ->
        parsed = JArr l \/
        (exists fields, parsed = JObj fields /\ assoc "entries" fields = Some (JArr l)) ->
        fst (Sidebar.handleFileUpload onImport result h w)
        = Return (Some (match fst (onImport l h w) with
                        | Return _ => "成功导入 " +:+ pretty (length l) +:+ " 篇日记！"
                        | Throw _ => "JSON 文件解析失败"
                        end)) /\
        snd (Sidebar.handleFileUpload onImport result h w) = snd (onImport l h w)) /\
    (forall parsed,
        result = Encoded parsed ->
        parsed <> JNull ->
        (forall l, parsed <> JArr l) ->
        (forall l, own_prop parsed "entries" <> Some (JArr l)) ->
        Sidebar.handleFileUpload onImport result h w = (Return None, w)) /\
    (result = Encoded JNull \/ (forall parsed, result <> Encoded parsed) ->
     Sidebar.handleFileUpload onImport result h w = (Return (Some "JSON 文件解析失败"), w)).
Proof.
  intros onImport result h w. split; [|split; [|split]].
  - unfold Sidebar.handleFileUpload, try_catch.
    destruct (bind _ _ h w) as [[msg|e] w']; simpl; eauto.
  - intros parsed l -> Hl. unfold Sidebar.handleFileUpload, try_catch, bind. cbn [parse ret].
    destruct Hl as [->|(fields & -> & Hf)]; cbn [Sidebar.Array_isArray get nullish own_prop ret].
    + destruct (onImport l h w) as [[u|e] w']; simpl; auto.
    + rewrite Hf. destruct (onImport l h w) as [[u|e] w']; simpl; auto.
  - intros parsed -> Hn Ha He. unfold Sidebar.handleFileUpload, try_catch, bind. cbn [parse ret].
    destruct parsed as [|b|n|s|elems|fields];
      cbn [Sidebar.Array_isArray get nullish own_prop ret throw] in *;
      try reflexivity; try congruence.
    destruct (assoc "entries" fields) as [[| | | |l|]|] eqn:E; try reflexivity.
    now destruct (He l).
  - intros [->|Hno]; [reflexivity|].
    destruct result as [|e|v]; try reflexivity. now destruct (Hno v).
Qed.

Lemma handleFileUpload_outcomes_witness :
  fst (Sidebar.handleFileUpload accept_import
         (Encoded (JObj [("entries", JArr [Entry_json (entry_named "a" "A")]);
                         ("version", JStr "2.0")]))
         offline (world_with DEFAULT_SETTINGS))
  = Return (Some ("成功导入 " +:+ pretty 1%nat +:+ " 篇日记！")) /\
  Sidebar.handleFileUpload accept_import (Encoded (JObj [("version", JStr "2.0")]))
    offline (world_with DEFAULT_SETTINGS)
  = (Return None, world_with DEFAULT_SETTINGS).
Proof.
  destruct (handleFileUpload_outcomes accept_import
              (Encoded (JObj [("entries", JArr [Entry_json (entry_named "a" "A")]);
                              ("version", JStr "2.0")]))
              offline (world_with DEFAULT_SETTINGS)) as (_ & Hlist & _).
  destruct (handleFileUpload_outcomes accept_import (Encoded (JObj [("version", JStr "2.0")]))
              offline (world_with DEFAULT_SETTINGS)) as (_ & _ & Hignored & _).
  split.
  - apply (Hlist _ [Entry_json (entry_named "a" "A")] eq_refl).
    right. eexists. split; reflexivity.
  - apply (Hignored _ eq_refl); discriminate.
Defined.
